(** * Unreel x402 MCP server: payment negotiation and job polling

    A shallow embedding of [handlePayment] and [pollJobStatus] of
    [src/index.ts] and of the axios-based [pollJobStatus] of the second entry
    point, with the properties the design document states about them.

    JavaScript values received from the network are modelled dynamically
    ([JsVal]); numbers are IEEE binary64 ([float]), as in the language.  Calls
    into the Solana client libraries and the few runtime conversions that are
    not worth re-implementing are fields of the classes [Runtime], [Keys] and
    [Solana]: every theorem holds for any behaviour of those libraries. *)

From Stdlib Require Import List String Ascii Bool ZArith Lia.
From Stdlib Require Import Floats Uint63 DecimalString.
Import ListNotations.

Set Implicit Arguments.
Set Warnings "-inexact-float,-register-all".

Local Open Scope list_scope.
Local Open Scope string_scope.

(* ================================================================== *)
(** * JavaScript values *)
(* ================================================================== *)

(** A value produced by [JSON.parse] (or [undefined], the value of a missing
    property).  The property list of [JObj] is in the object's own property
    order, the order [Object.values] enumerates; a property occurs once. *)
Inductive JsVal : Type :=
| JUndefined
| JNull
| JBool (b : bool)
| JNum (n : float)
| JStr (s : string)
| JArr (elems : list JsVal)
| JObj (props : list (string * JsVal)).

(** A thrown exception: the constructor's name and the message. *)
Record Exn : Type := mkExn { exn_name : string; message : string }.

Definition Error (msg : string) : Exn := mkExn "Error" msg.
Definition TypeError (msg : string) : Exn := mkExn "TypeError" msg.

(** The result of evaluating an expression that may throw. *)
Inductive Outcome (A : Type) : Type :=
| Returns (a : A)
| Throws (e : Exn).

Arguments Returns {A} a.
Arguments Throws {A} e.

Definition bindO {A B} (o : Outcome A) (k : A -> Outcome B) : Outcome B :=
  match o with
  | Returns a => k a
  | Throws e => Throws e
  end.

Definition returned {A} (o : Outcome A) : bool :=
  match o with Returns _ => true | Throws _ => false end.

(** [ToBoolean]: the test of [if (v)], [!v], [a || b]. *)
Definition truthy (v : JsVal) : bool :=
  match v with
  | JUndefined | JNull => false
  | JBool b => b
  | JNum n => negb (PrimFloat.is_zero n || PrimFloat.is_nan n)
  | JStr s => negb (String.eqb s "")
  | JArr _ | JObj _ => true
  end.

(** [a || b] on values. *)
Definition js_or (a b : JsVal) : JsVal := if truthy a then a else b.

Fixpoint lookup (k : string) (props : list (string * JsVal)) : JsVal :=
  match props with
  | [] => JUndefined
  | (k', v) :: rest => if String.eqb k k' then v else lookup k rest
  end.

(** [v.k] for a property name [k] that is neither an index nor ["length"]
    (the only names the program reads): a [TypeError] on [null] and
    [undefined], the property of an object, [undefined] on everything else. *)
Definition get (v : JsVal) (k : string) : Outcome JsVal :=
  match v with
  | JUndefined =>
      Throws (TypeError ("Cannot read properties of undefined (reading '" ++ k ++ "')"))
  | JNull =>
      Throws (TypeError ("Cannot read properties of null (reading '" ++ k ++ "')"))
  | JObj props => Returns (lookup k props)
  | _ => Returns JUndefined
  end.

(** [v?.k]. *)
Definition opt_get (v : JsVal) (k : string) : JsVal :=
  match v with
  | JObj props => lookup k props
  | _ => JUndefined
  end.

(** [v[0]]: first element of an array, first character of a string, the
    property ["0"] of an object. *)
Definition get0 (v : JsVal) : Outcome JsVal :=
  match v with
  | JUndefined => Throws (TypeError "Cannot read properties of undefined (reading '0')")
  | JNull => Throws (TypeError "Cannot read properties of null (reading '0')")
  | JArr elems => Returns (nth 0 elems JUndefined)
  | JStr (String c _) => Returns (JStr (String c ""))
  | JObj props => Returns (lookup "0" props)
  | _ => Returns JUndefined
  end.

(** [v?.[0]]. *)
Definition opt_get0 (v : JsVal) : JsVal :=
  match v with
  | JArr elems => nth 0 elems JUndefined
  | JStr (String c _) => JStr (String c "")
  | JObj props => lookup "0" props
  | _ => JUndefined
  end.

(** [x === n] for a number literal [n]. *)
Definition strict_eq_num (x : JsVal) (n : float) : bool :=
  match x with
  | JNum m => PrimFloat.eqb m n
  | _ => false
  end.

(** [x === s] for a string literal [s]. *)
Definition strict_eq_str (x : JsVal) (s : string) : bool :=
  match x with
  | JStr t => String.eqb t s
  | _ => false
  end.

(** [typeof v === "object"]: true of [null] as well. *)
Definition typeof_object (v : JsVal) : bool :=
  match v with
  | JNull | JArr _ | JObj _ => true
  | _ => false
  end.

Definition isArray (v : JsVal) : bool :=
  match v with JArr _ => true | _ => false end.

(** [Object.values(v)] on the values that reach it. *)
Definition Object_values (v : JsVal) : Outcome (list JsVal) :=
  match v with
  | JUndefined | JNull => Throws (TypeError "Cannot convert undefined or null to object")
  | JObj props => Returns (map snd props)
  | JArr elems => Returns elems
  | JStr s => Returns (map (fun c => JStr (String c "")) (list_ascii_of_string s))
  | JBool _ | JNum _ => Returns []
  end.

(** The conversions between strings and numbers that the language runtime
    provides, and [Buffer.from] on a plain (non-array) object, which accepts
    array-like objects and the JSON form of a buffer and throws on others. *)
Class Runtime : Type := {
  StringToNumber : string -> float;
  NumberToString : float -> string;
  Buffer_from_object : list (string * JsVal) -> Outcome (list Z);
}.

Section Program.
Context {rt : Runtime}.

(** [String(v)], the conversion a template literal applies. *)
Fixpoint ToString (v : JsVal) : string :=
  match v with
  | JUndefined => "undefined"
  | JNull => "null"
  | JBool true => "true"
  | JBool false => "false"
  | JNum n => NumberToString n
  | JStr s => s
  | JArr elems =>
      (fix join (l : list JsVal) : string :=
         match l with
         | [] => ""
         | x :: rest =>
             let sx := match x with
                       | JUndefined | JNull => ""
                       | _ => ToString x
                       end in
             match rest with
             | [] => sx
             | _ :: _ => sx ++ "," ++ join rest
             end
         end) elems
  | JObj _ => "[object Object]"
  end.

(** [Number(v)]. *)
Definition ToNumber (v : JsVal) : float :=
  match v with
  | JUndefined => PrimFloat.nan
  | JNull => 0%float
  | JBool true => 1%float
  | JBool false => 0%float
  | JNum n => n
  | JStr s => StringToNumber s
  | JArr _ | JObj _ => StringToNumber (ToString v)
  end.

(** Truncation of a number towards zero; [0] for NaN and the infinities. *)
Definition trunc (n : float) : Z :=
  match Prim2SF n with
  | S754_finite sign m e =>
      let a := Z.shiftl (Zpos m) e in
      if sign then (- a)%Z else a
  | _ => 0%Z
  end.

(** [ToUint8], the conversion of an element stored into a byte array. *)
Definition ToUint8 (v : JsVal) : Z := (trunc (ToNumber v) mod 256)%Z.

Definition utf8 (s : string) : list Z :=
  map (fun c => Z.of_nat (nat_of_ascii c)) (list_ascii_of_string s).

(** [Buffer.from(v)]. *)
Definition Buffer_from (v : JsVal) : Outcome (list Z) :=
  match v with
  | JStr s => Returns (utf8 s)
  | JArr elems => Returns (map ToUint8 elems)
  | JObj props => Buffer_from_object props
  | JUndefined | JNull | JBool _ | JNum _ =>
      Throws (TypeError "The first argument must be of type string or an instance of Buffer, ArrayBuffer, or Array or an Array-like Object.")
  end.

(** The number with the value of a byte. *)
Definition byte_num (b : Z) : JsVal := JNum (PrimFloat.of_uint63 (Uint63.of_Z b)).

(** Lines 149-158 of [handlePayment]: the payload of the relay instruction
    brought to one byte sequence. *)
Definition dataBuffer (data : JsVal) : Outcome (list Z) :=
  if isArray data then Buffer_from data
  else if truthy (opt_get data "data") then
    bindO (get data "data") Buffer_from
  else if typeof_object data then
    bindO (Object_values data) (fun vs => Buffer_from (JArr vs))
  else Buffer_from (JArr []).

(** The flags the [accounts.map] callback derives from [account.role]. *)
Definition isSigner_of_role (role : JsVal) : bool :=
  strict_eq_num role 2 || strict_eq_num role 3.

Definition isWritable_of_role (role : JsVal) : bool :=
  strict_eq_num role 1 || strict_eq_num role 3.

(* ================================================================== *)
(** * The Solana client libraries *)
(* ================================================================== *)

(** [@solana/web3.js] keys: [PublicKey] objects, the [Keypair] of the wallet,
    the constructor [new PublicKey(v)], which throws on input that is not a
    key, and [toBase58]. *)
Class Keys : Type := {
  Key : Type;
  Keypair : Type;
  publicKey : Keypair -> Key;
  PublicKey : JsVal -> Outcome Key;
  toBase58 : Key -> string;
}.

Context {K : Keys}.

Record AccountMeta : Type := {
  pubkey : Key;
  isSigner : bool;
  isWritable : bool;
}.

Record TransactionInstruction : Type := {
  keys : list AccountMeta;
  programId : Key;
  data : list Z;
}.

Record SignaturePubkeyPair : Type := {
  signature : option (list Z);
  signer : Key;
}.

(** A [Transaction] object: the anchor ([recentBlockhash]), the fee payer,
    the instructions in order and the signatures collected so far. *)
Record Transaction : Type := {
  recentBlockhash : option string;
  feePayer : option Key;
  instructions : list TransactionInstruction;
  signatures : list SignaturePubkeyPair;
}.

Record SerializeConfig : Type := {
  requireAllSignatures : bool;
  verifySignatures : bool;
}.

(** [new Transaction()]. *)
Definition Transaction_new : Transaction :=
  {| recentBlockhash := None; feePayer := None; instructions := []; signatures := [] |}.

(** [transaction.recentBlockhash = blockhash]. *)
Definition set_recentBlockhash (tx : Transaction) (blockhash : string) : Transaction :=
  {| recentBlockhash := Some blockhash; feePayer := tx.(feePayer);
     instructions := tx.(instructions); signatures := tx.(signatures) |}.

(** [transaction.feePayer = key]. *)
Definition set_feePayer (tx : Transaction) (key : Key) : Transaction :=
  {| recentBlockhash := tx.(recentBlockhash); feePayer := Some key;
     instructions := tx.(instructions); signatures := tx.(signatures) |}.

(** [transaction.add(ix)]: the instruction goes last. *)
Definition add (tx : Transaction) (ix : TransactionInstruction) : Transaction :=
  {| recentBlockhash := tx.(recentBlockhash); feePayer := tx.(feePayer);
     instructions := (tx.(instructions) ++ [ix])%list; signatures := tx.(signatures) |}.

(** The calls into [@solana/spl-token] and [@solana/web3.js]:
    [createTransferInstruction source destination owner amount multiSigners
    programId], [transaction.partialSign(keypair)], which returns the
    transaction as signing leaves it, and [transaction.serialize(config)
    .toString("base64")]. *)
Class Solana : Type := {
  getAssociatedTokenAddress : Key -> Key -> Outcome Key;
  TOKEN_PROGRAM_ID : Key;
  createTransferInstruction :
    Key -> Key -> Key -> float -> list Key -> Key -> Outcome TransactionInstruction;
  partialSign : Transaction -> Keypair -> Outcome Transaction;
  serialize_base64 : Transaction -> SerializeConfig -> Outcome string;
}.

Context {sol : Solana}.

(* ================================================================== *)
(** * Effects: the calls a run makes, in order *)
(* ================================================================== *)

(** The network calls and timers of the program.  A relay call names the
    tenant of its URL, [X402_SERVICE_URL/<endpoint>/<tenantId>], and carries
    the object given to [JSON.stringify]. *)
Inductive Event : Type :=
| FetchSupported (tenantId : string)
| GetLatestBlockhash
| FetchPaymentInstruction (tenantId : string) (body : JsVal)
| FetchSettle (tenantId : string) (body : JsVal)
| FetchJob (jobId : string)
| SetTimeout (delay : float).

(** A computation: the calls made so far and how it ended. *)
Definition M (A : Type) : Type := (list Event * Outcome A)%type.

Definition ret {A} (a : A) : M A := ([], Returns a).
Definition throw {A} (e : Exn) : M A := ([], Throws e).
Definition lift {A} (o : Outcome A) : M A := ([], o).

(** [await] of a call whose answer is [o]. *)
Definition await {A} (ev : Event) (o : Outcome A) : M A := ([ev], o).

Definition bind {A B} (m : M A) (k : A -> M B) : M B :=
  match m with
  | (t, Returns a) => let (t', r) := k a in ((t ++ t')%list, r)
  | (t, Throws e) => (t, Throws e)
  end.

Notation "x <- m ;; k" := (bind m (fun x => k))
  (at level 61, m at next level, right associativity).

Definition trace {A} (m : M A) : list Event := fst m.
Definition outcome {A} (m : M A) : Outcome A := snd m.

(** The delays of the timers set during a run, in order. *)
Fixpoint timeouts (t : list Event) : list float :=
  match t with
  | [] => []
  | SetTimeout delay :: rest => delay :: timeouts rest
  | _ :: rest => timeouts rest
  end.

Definition is_settle (ev : Event) : bool :=
  match ev with FetchSettle _ _ => true | _ => false end.

(** [arr.map(f)] for a callback that may throw. *)
Fixpoint mapO {A B} (f : A -> Outcome B) (l : list A) : Outcome (list B) :=
  match l with
  | [] => Returns []
  | x :: rest =>
      bindO (f x) (fun y => bindO (mapO f rest) (fun ys => Returns (y :: ys)))
  end.

Definition Array_map {B} (arr : JsVal) (f : JsVal -> Outcome B) : Outcome (list B) :=
  match arr with
  | JArr elems => mapO f elems
  | JUndefined => Throws (TypeError "Cannot read properties of undefined (reading 'map')")
  | JNull => Throws (TypeError "Cannot read properties of null (reading 'map')")
  | _ => Throws (TypeError "paymentInstruction.accounts.map is not a function")
  end.

(* ================================================================== *)
(** * [handlePayment] *)
(* ================================================================== *)

Record Extra : Type := {
  extra_feePayer : option string;
  x402_tenant_id : option string;
  x402_service_url : option string;
}.

(** [interface PaymentRequirements]: the challenge of a 402 response. *)
Record PaymentRequirements : Type := {
  network : string;
  payTo : string;
  asset : string;
  maxAmountRequired : string;
  extra : option Extra;
}.

(** What the services answer during one run of [handlePayment]: the parsed
    JSON of the three relay endpoints and the ledger's latest blockhash, or
    the exception with which [fetch], [json()] or the RPC call rejects.  A
    run calls each of them at most once, so one answer each describes any
    server; the requests made are recorded in the trace of the run. *)
Record Services : Type := {
  supportedRes : Outcome JsVal;
  latestBlockhash : Outcome string;
  paymentInstructionRes : Outcome JsVal;
  settleRes : Outcome JsVal;
}.

(** Configuration read at start-up. *)
Variable UNREEL_API_URL : string.
Variable wallet : Keypair.

(** The network identifier the settlement request is sent with. *)
Definition SOLANA_MAINNET : string := "solana:5eykt4UsFv8P8NJdTREpY1vzqKqZKvdp".

(** [requirements.extra?.x402_tenant_id || "unreel-ai"]. *)
Definition tenantId_of (requirements : PaymentRequirements) : string :=
  match requirements.(extra) with
  | Some e =>
      match e.(x402_tenant_id) with
      | Some t => if String.eqb t "" then "unreel-ai" else t
      | None => "unreel-ai"
      end
  | None => "unreel-ai"
  end.

(** The callback of [paymentInstruction.accounts.map]. *)
Definition koraKey (account : JsVal) : Outcome AccountMeta :=
  bindO (get account "address") (fun address =>
  bindO (PublicKey address) (fun pk =>
  bindO (get account "role") (fun role =>
  Returns {| pubkey := pk;
             isSigner := isSigner_of_role role;
             isWritable := isWritable_of_role role |}))).

(** The draft of steps 2 and 4: a fresh transaction with the anchor, the fee
    payer and the transfer instruction. *)
Definition transferDraft (blockhash : string) (payer : Key)
    (transfer : TransactionInstruction) : Transaction :=
  add (set_feePayer (set_recentBlockhash Transaction_new blockhash) payer) transfer.

(** The body of the request to the relay's instruction endpoint. *)
Definition paymentInstructionBody (baseTx : string)
    (requirements : PaymentRequirements) : JsVal :=
  JObj [("transaction", JStr baseTx);
        ("feeToken", JStr requirements.(asset));
        ("sourceWallet", JStr (toBase58 (publicKey wallet)))].

(** The body of the request to the relay's settlement endpoint. *)
Definition settleBody (signedTx : string) (requirements : PaymentRequirements)
    (signerAddress : JsVal) : JsVal :=
  JObj [("paymentPayload",
         JObj [("x402Version", JNum 2);
               ("scheme", JStr "exact");
               ("network", JStr SOLANA_MAINNET);
               ("payload", JObj [("transaction", JStr signedTx)])]);
        ("paymentRequirements",
         JObj [("x402Version", JNum 2);
               ("scheme", JStr "exact");
               ("network", JStr SOLANA_MAINNET);
               ("maxAmountRequired", JStr requirements.(maxAmountRequired));
               ("resource", JStr (UNREEL_API_URL ++ "/api/generate-x402"));
               ("payTo", JStr requirements.(payTo));
               ("asset", JStr requirements.(asset));
               ("extra", JObj [("feePayer", signerAddress)])])].

(** Lines 82-85: the first advertised fee payer of the discovery response. *)
Definition feePayerAddress_of (supportedInfo : JsVal) : Outcome JsVal :=
  bindO (get supportedInfo "kinds") (fun kinds =>
  if negb (truthy (opt_get (opt_get (opt_get0 kinds) "extra") "feePayer")) then
    Throws (Error "Failed to get fee payer from x402 service")
  else
    bindO (get supportedInfo "kinds") (fun ks =>
    bindO (get0 ks) (fun k0 =>
    bindO (get k0 "extra") (fun e =>
    get e "feePayer")))).

(** Lines 123-128: the check of the instruction response; the result is the
    pair of [paymentInstruction] and [signerAddress]. *)
Definition paymentInstruction_of (paymentInstructionData : JsVal)
    : Outcome (JsVal * JsVal) :=
  bindO (get paymentInstructionData "error") (fun error =>
  bindO (get paymentInstructionData "payment_instruction") (fun paymentInstruction =>
  if truthy error || negb (truthy paymentInstruction) then
    Throws (Error ("Failed to get payment instruction: "
                   ++ ToString (js_or error (JStr "No instruction returned"))))
  else
    bindO (get paymentInstructionData "signer_address") (fun signerAddress =>
    Returns (paymentInstruction, signerAddress)))).

(** Lines 148-168: [koraInstruction], from the normalised payload, the
    account entries and the program address, evaluated in that order. *)
Definition koraInstruction_of (paymentInstruction : JsVal)
    : Outcome TransactionInstruction :=
  bindO (get paymentInstruction "data") (fun payload =>
  bindO (dataBuffer payload) (fun buffer =>
  bindO (get paymentInstruction "accounts") (fun accounts =>
  bindO (Array_map accounts koraKey) (fun koraKeys =>
  bindO (get paymentInstruction "programAddress") (fun programAddress =>
  bindO (PublicKey programAddress) (fun koraProgram =>
  Returns {| keys := koraKeys; programId := koraProgram; data := buffer |})))))).

(** Lines 199-206: the check of the settlement response. *)
Definition settled (settleData : JsVal) : Outcome JsVal :=
  bindO (get settleData "success") (fun success =>
  if negb (truthy success) then
    bindO (get settleData "errorReason") (fun errorReason =>
    bindO (get settleData "error") (fun error =>
    Throws (Error ("Settlement failed: "
                   ++ ToString (js_or (js_or errorReason error) (JStr "Unknown error"))))))
  else get settleData "transaction").

Definition unsigned : SerializeConfig :=
  {| requireAllSignatures := false; verifySignatures := false |}.

Definition partiallySigned : SerializeConfig :=
  {| requireAllSignatures := false; verifySignatures := true |}.

Definition handlePayment (net : Services) (requirements : PaymentRequirements)
    : M JsVal :=
  let tenantId := tenantId_of requirements in
  payTo_ <- lift (PublicKey (JStr requirements.(payTo))) ;;
  usdcMint <- lift (PublicKey (JStr requirements.(asset))) ;;
  let amount := StringToNumber requirements.(maxAmountRequired) in
  (* Step 1: get fee payer from the x402 service *)
  supportedInfo <- await (FetchSupported tenantId) net.(supportedRes) ;;
  feePayerAddress <- lift (feePayerAddress_of supportedInfo) ;;
  (* Step 2: build the base transfer transaction *)
  senderUsdcAccount <- lift (getAssociatedTokenAddress usdcMint (publicKey wallet)) ;;
  recipientUsdcAccount <- lift (getAssociatedTokenAddress usdcMint payTo_) ;;
  blockhash <- await GetLatestBlockhash net.(latestBlockhash) ;;
  feePayerKey <- lift (PublicKey feePayerAddress) ;;
  transfer <- lift (createTransferInstruction senderUsdcAccount recipientUsdcAccount
                      (publicKey wallet) amount [] TOKEN_PROGRAM_ID) ;;
  let transaction := transferDraft blockhash feePayerKey transfer in
  (* Step 3: get the payment instruction from the relay *)
  baseTx <- lift (serialize_base64 transaction unsigned) ;;
  paymentInstructionData <-
    await (FetchPaymentInstruction tenantId (paymentInstructionBody baseTx requirements))
          net.(paymentInstructionRes) ;;
  instruction <- lift (paymentInstruction_of paymentInstructionData) ;;
  let paymentInstruction := fst instruction in
  let signerAddress := snd instruction in
  (* Step 4: rebuild the transaction with the payment instruction *)
  signerKey <- lift (PublicKey signerAddress) ;;
  transfer' <- lift (createTransferInstruction senderUsdcAccount recipientUsdcAccount
                       (publicKey wallet) amount [] TOKEN_PROGRAM_ID) ;;
  let transaction := transferDraft blockhash signerKey transfer' in
  koraInstruction <- lift (koraInstruction_of paymentInstruction) ;;
  let transaction := add transaction koraInstruction in
  (* Step 5: sign and settle *)
  signed <- lift (partialSign transaction wallet) ;;
  signedTx <- lift (serialize_base64 signed partiallySigned) ;;
  settleData <-
    await (FetchSettle tenantId (settleBody signedTx requirements signerAddress))
          net.(settleRes) ;;
  lift (settled settleData).

(** The design document's names for the errors the program throws. *)
Definition RelayRejected (reason : string) : Exn :=
  Error ("Failed to get payment instruction: " ++ reason).
Definition JobFailed (reason : string) : Exn := Error ("Job failed: " ++ reason).
Definition JobNotFound (jobId : string) : Exn := Error ("Job not found: " ++ jobId).

(** The values a run of [handlePayment] has computed by the time it calls
    the settlement endpoint, under the names the source gives them. *)
Record Negotiation : Type := {
  payTo_ : Key;
  usdcMint : Key;
  supportedInfo : JsVal;
  feePayerAddress : JsVal;
  senderUsdcAccount : Key;
  recipientUsdcAccount : Key;
  blockhash : string;
  feePayerKey : Key;
  transfer : TransactionInstruction;
  baseTx : string;
  paymentInstructionData : JsVal;
  paymentInstruction : JsVal;
  signerAddress : JsVal;
  signerKey : Key;
  koraInstruction : TransactionInstruction;
  signed : Transaction;
  signedTx : string;
}.

(** The draft of step 2, serialized into the instruction request. *)
Definition firstDraft (n : Negotiation) : Transaction :=
  transferDraft n.(blockhash) n.(feePayerKey) n.(transfer).

(** The draft of step 4, which is signed and sent for settlement. *)
Definition finalDraft (n : Negotiation) : Transaction :=
  add (transferDraft n.(blockhash) n.(signerKey) n.(transfer)) n.(koraInstruction).

(** [n] holds the values of the run of [handlePayment net requirements]:
    each was returned by the step that computes it in the source. *)
Definition negotiated (net : Services) (requirements : PaymentRequirements)
    (n : Negotiation) : Prop :=
  PublicKey (JStr requirements.(payTo)) = Returns n.(payTo_) /\
  PublicKey (JStr requirements.(asset)) = Returns n.(usdcMint) /\
  net.(supportedRes) = Returns n.(supportedInfo) /\
  feePayerAddress_of n.(supportedInfo) = Returns n.(feePayerAddress) /\
  getAssociatedTokenAddress n.(usdcMint) (publicKey wallet)
    = Returns n.(senderUsdcAccount) /\
  getAssociatedTokenAddress n.(usdcMint) n.(payTo_)
    = Returns n.(recipientUsdcAccount) /\
  net.(latestBlockhash) = Returns n.(blockhash) /\
  PublicKey n.(feePayerAddress) = Returns n.(feePayerKey) /\
  createTransferInstruction n.(senderUsdcAccount) n.(recipientUsdcAccount)
    (publicKey wallet) (StringToNumber requirements.(maxAmountRequired)) []
    TOKEN_PROGRAM_ID = Returns n.(transfer) /\
  serialize_base64 (firstDraft n) unsigned = Returns n.(baseTx) /\
  net.(paymentInstructionRes) = Returns n.(paymentInstructionData) /\
  paymentInstruction_of n.(paymentInstructionData)
    = Returns (n.(paymentInstruction), n.(signerAddress)) /\
  PublicKey n.(signerAddress) = Returns n.(signerKey) /\
  koraInstruction_of n.(paymentInstruction) = Returns n.(koraInstruction) /\
  partialSign (finalDraft n) wallet = Returns n.(signed) /\
  serialize_base64 n.(signed) partiallySigned = Returns n.(signedTx).

(* ================================================================== *)
(** * [pollJobStatus] of [src/index.ts] *)
(* ================================================================== *)

(** [Math.min(x, y)]: NaN if either argument is, else the smaller one.  (The
    sign of a zero result is not tracked; the program's second argument is
    the constant 30000.) *)
Definition Math_min (x y : float) : float :=
  if PrimFloat.is_nan x || PrimFloat.is_nan y then PrimFloat.nan
  else if PrimFloat.ltb x y then x else y.

(** [delay = Math.min(delay * 1.2, 30000)]. *)
Definition next_delay (delay : float) : float :=
  Math_min (PrimFloat.mul delay 1.2) 30000.

(** The value of [delay] after [k] passes through the loop body. *)
Fixpoint delay_after (k : nat) (initialDelay : float) : float :=
  match k with
  | O => initialDelay
  | S k' => next_delay (delay_after k' initialDelay)
  end.

(** The template-literal form of the attempt count. *)
Definition nat_to_string (n : nat) : string :=
  NilEmpty.string_of_uint (Nat.to_uint n).

Definition JobTimeout (maxAttempts : nat) : Exn :=
  Error ("Job timed out after " ++ nat_to_string maxAttempts ++ " attempts").

(** What one pass of the polling loop sees in the parsed job: the two final
    statuses, any other status (the job is still pending), or an exception. *)
Inductive Observation : Type :=
| Completed (job : JsVal)
| Failed (job : JsVal)
| Pending
| Broken (e : Exn).

Definition observe_job (job : Outcome JsVal) : Observation :=
  match job with
  | Throws e => Broken e
  | Returns j =>
      match get j "status" with
      | Throws e => Broken e
      | Returns st =>
          if strict_eq_str st "completed" then Completed j
          else if strict_eq_str st "failed" then Failed j
          else Pending
      end
  end.

(** A [Response] of [fetch]: the HTTP status, which [pollJobStatus] never
    reads, and the result of [res.json()]. *)
Record Response : Type := {
  status : Z;
  json : Outcome JsVal;
}.

(** The [while (attempt < maxAttempts)] loop with [remaining = maxAttempts -
    attempt] passes left; [jobs attempt] is what [fetch] of the job resource
    yields on pass [attempt]. *)
Fixpoint poll_loop (jobs : nat -> Outcome Response) (jobId : string)
    (maxAttempts : nat) (remaining attempt : nat) (delay : float) : M JsVal :=
  match remaining with
  | O => throw (Error ("Job timed out after " ++ nat_to_string maxAttempts ++ " attempts"))
  | S remaining' =>
      res <- await (FetchJob jobId) (jobs attempt) ;;
      job <- lift res.(json) ;;
      st <- lift (get job "status") ;;
      if strict_eq_str st "completed" then ret job
      else if strict_eq_str st "failed" then
        error <- lift (get job "error") ;;
        throw (Error ("Job failed: " ++ ToString (js_or error (JStr "Unknown error"))))
      else
        _ <- await (SetTimeout delay) (Returns tt) ;;
        poll_loop jobs jobId maxAttempts remaining' (S attempt) (next_delay delay)
  end.

Definition pollJobStatus (jobs : nat -> Outcome Response) (jobId : string)
    (maxAttempts : nat) (initialDelay : float) : M JsVal :=
  poll_loop jobs jobId maxAttempts maxAttempts 0 initialDelay.

(** What the loop of [src/index.ts] sees in the answer of [fetch]. *)
Definition observe (answer : Outcome Response) : Observation :=
  match answer with
  | Throws e => Broken e
  | Returns res => observe_job res.(json)
  end.

(* ================================================================== *)
(** * [pollJobStatus] of the axios entry point *)
(* ================================================================== *)

(** What [api.get] does: it resolves with a response whose [data] is the
    parsed body, or rejects with an error that carries the HTTP status of
    the response, if there was one (axios rejects on a status outside 2xx). *)
Inductive AxiosResult : Type :=
| Resolved (data : JsVal)
| Rejected (e : Exn) (response_status : option float).

(** The [catch] clause: [error.response?.status === 404]. *)
Definition is_404 (response_status : option float) : bool :=
  match response_status with
  | Some s => PrimFloat.eqb s 404
  | None => false
  end.

(** An exception thrown inside the [try] block by the program itself has no
    [response], so the [catch] clause rethrows it. *)
Fixpoint axios_poll_loop (api : nat -> AxiosResult) (jobId : string)
    (maxAttempts : nat) (remaining attempt : nat) (delay : float) : M JsVal :=
  match remaining with
  | O => throw (Error ("Job timed out after " ++ nat_to_string maxAttempts ++ " attempts"))
  | S remaining' =>
      match api attempt with
      | Rejected e response_status =>
          await (FetchJob jobId)
                (Throws (if is_404 response_status
                         then Error ("Job not found: " ++ jobId) else e))
      | Resolved data_ =>
          _ <- await (FetchJob jobId) (Returns tt) ;;
          st <- lift (get data_ "status") ;;
          if strict_eq_str st "completed" then ret data_
          else if strict_eq_str st "failed" then
            error <- lift (get data_ "error") ;;
            throw (Error ("Job failed: " ++ ToString (js_or error (JStr "Unknown error"))))
          else
            _ <- await (SetTimeout delay) (Returns tt) ;;
            axios_poll_loop api jobId maxAttempts remaining' (S attempt) (next_delay delay)
      end
  end.

Definition axios_pollJobStatus (api : nat -> AxiosResult) (jobId : string)
    (maxAttempts : nat) (initialDelay : float) : M JsVal :=
  axios_poll_loop api jobId maxAttempts maxAttempts 0 initialDelay.

(** What the loop of the axios entry point sees in the answer of [api.get]:
    a rejection with status 404 is the missing job. *)
Definition axios_observe (jobId : string) (answer : AxiosResult) : Observation :=
  match answer with
  | Rejected e response_status =>
      Broken (if is_404 response_status then JobNotFound jobId else e)
  | Resolved data_ => observe_job (Returns data_)
  end.

End Program.

(* ================================================================== *)
(** * [makePaidRequest] and the tool handlers of [src/index.ts] *)
(* ================================================================== *)

Section Tools.

Context {rt : Runtime} {K : Keys} {sol : Solana}.
Variable UNREEL_API_URL : string.
Variable wallet : Keypair.

(** A run over any kind of call: [M] is [Run Event]. *)
Definition Run (E A : Type) : Type := (list E * Outcome A)%type.

Definition retR {E A} (a : A) : Run E A := ([], Returns a).
Definition throwR {E A} (e : Exn) : Run E A := ([], Throws e).
Definition liftR {E A} (o : Outcome A) : Run E A := ([], o).
Definition awaitR {E A} (ev : E) (o : Outcome A) : Run E A := ([ev], o).

Definition bindR {E A B} (m : Run E A) (k : A -> Run E B) : Run E B :=
  match m with
  | (t, Returns a) => let (t', r) := k a in ((t ++ t')%list, r)
  | (t, Throws e) => (t, Throws e)
  end.

(** [try { m } catch (error) { h error }]. *)
Definition catchR {E A} (m : Run E A) (h : Exn -> Run E A) : Run E A :=
  match m with
  | (t, Returns a) => (t, Returns a)
  | (t, Throws e) => let (t', r) := h e in ((t ++ t')%list, r)
  end.

(** A run made inside another, its calls tagged by [f]. *)
Definition within {E E' A} (f : E -> E') (m : Run E A) : Run E' A :=
  (map f (fst m), snd m).

Notation "x <- m ;; k" := (bindR m (fun x => k))
  (at level 61, m at next level, right associativity).

(** The calls of the tool layer: a POST to the paid API, with the object
    given to [JSON.stringify] as body and the object encoded into the
    [X-PAYMENT] header, if one is sent; or a call made by [handlePayment] or
    [pollJobStatus]. *)
Inductive Call : Type :=
| PostApi (endpoint : string) (body : JsVal) (x_payment : option JsVal)
| Sub (ev : Event).

(** A response of the paid API: the HTTP status, the results of [text()]
    and [json()], and [accepts], the result of [(await res.json()).accepts]
    read at the type the code declares for its first element. *)
Record ApiResponse : Type := {
  http_status : Z;
  text : Outcome string;
  parsed : Outcome JsVal;
  accepts : Outcome (list PaymentRequirements);
}.

(** [res.ok]: a status from 200 to 299. *)
Definition ok (res : ApiResponse) : bool :=
  ((200 <=? res.(http_status)) && (res.(http_status) <=? 299))%Z.

(** The template-literal form of a status. *)
Definition Z_to_string (z : Z) : string := NilEmpty.string_of_int (Z.to_int z).

(** What the paid API answers to the first request and to the replay. *)
Record Api : Type := {
  initialRes : Outcome ApiResponse;
  paidRes : Outcome ApiResponse;
}.

(** The object encoded into the [X-PAYMENT] header. *)
Definition paymentPayload (requirements : PaymentRequirements)
    (txSignature : JsVal) : JsVal :=
  JObj [("x402Version", JNum 2);
        ("scheme", JStr "exact");
        ("network", JStr requirements.(network));
        ("payload", JObj [("transaction", txSignature)])].

Definition makePaidRequest (api : Api) (net : Services) (endpoint : string)
    (body : JsVal) : Run Call JsVal :=
  (* Step 1: initial request *)
  initialRes <- awaitR (PostApi endpoint body None) api.(initialRes) ;;
  if negb (initialRes.(http_status) =? 402)%Z then
    if negb (ok initialRes) then
      error <- liftR initialRes.(text) ;;
      throwR (Error ("API error (" ++ Z_to_string initialRes.(http_status) ++ "): " ++ error))
    else liftR initialRes.(parsed)
  else
  (* Step 2: parse payment requirements *)
  offered <- liftR initialRes.(accepts) ;;
  match offered with
  | [] =>
      throwR (TypeError "Cannot read properties of undefined (reading 'maxAmountRequired')")
  | requirements :: _ =>
      (* Step 3: handle payment *)
      txSignature <- within Sub (handlePayment UNREEL_API_URL wallet net requirements) ;;
      (* Step 4: request with payment proof *)
      paidRes <- awaitR (PostApi endpoint body
                           (Some (paymentPayload requirements txSignature)))
                        api.(paidRes) ;;
      if negb (ok paidRes) then
        error <- liftR paidRes.(text) ;;
        throwR (Error ("Paid request failed (" ++ Z_to_string paidRes.(http_status)
                       ++ "): " ++ error))
      else liftR paidRes.(parsed)
  end.

(** The arguments of the tool [generate-video]. *)
Record GenerateVideo : Type := {
  prompt : string;
  reference_images : option (list string);
  webhook_url : option string;
  webhook_secret : option string;
  wait_for_completion : option bool;
}.

(** [if (s) requestBody.k = s] for an optional string. *)
Definition optional_field (k : string) (s : option string) : list (string * JsVal) :=
  match s with
  | Some t => if String.eqb t "" then [] else [(k, JStr t)]
  | None => []
  end.

(** [requestBody], lines 322-325. *)
Definition requestBody (args : GenerateVideo) : JsVal :=
  JObj ([("script_text", JStr args.(prompt))]
        ++ match args.(reference_images) with
           | Some (image :: images) =>
               [("reference_images", JArr (map JStr (image :: images)))]
           | _ => []
           end
        ++ optional_field "webhook_url" args.(webhook_url)
        ++ optional_field "webhook_secret" args.(webhook_secret))%list.

(** [const { k, ... } = v]: the properties are read as by [v.k], after a
    [TypeError] if [v] is [null] or [undefined]. *)
Definition destructure (v : JsVal) (source k : string) : Outcome JsVal :=
  match v with
  | JUndefined =>
      Throws (TypeError ("Cannot destructure property '" ++ k ++ "' of '" ++ source
                         ++ "' as it is undefined."))
  | JNull =>
      Throws (TypeError ("Cannot destructure property '" ++ k ++ "' of '" ++ source
                         ++ "' as it is null."))
  | _ => Returns (opt_get v k)
  end.

(** [error.message || fallback]. *)
Definition message_or (e : Exn) (fallback : string) : string :=
  if String.eqb e.(message) "" then fallback else e.(message).

(** The handler of [generate-video], lines 312-373.  The result is the
    object the handler passes to [JSON.stringify] for its text content. *)
Definition generate_video (api : Api) (net : Services)
    (jobs : nat -> Outcome Response) (args : GenerateVideo) : Run Call JsVal :=
  catchR
    (response <- makePaidRequest api net "/api/generate-x402" (requestBody args) ;;
     job_id <- liftR (destructure response "response" "job_id") ;;
     let status := opt_get response "status" in
     let status_url := opt_get response "status_url" in
     match args.(wait_for_completion) with
     | Some true =>
         result <- within Sub (pollJobStatus jobs (ToString job_id) 60 5000) ;;
         video_url <- liftR (get result "video_url") ;;
         retR (JObj [("success", JBool true);
                     ("job_id", job_id);
                     ("status", JStr "completed");
                     ("video_url", video_url);
                     ("message", JStr "Video generated successfully!")])
     | _ =>
         retR (JObj [("success", JBool true);
                     ("job_id", job_id);
                     ("status", status);
                     ("status_url", status_url);
                     ("message", JStr "Video generation started. Use check-job-status to monitor progress.")])
     end)
    (fun error =>
       retR (JObj [("success", JBool false);
                   ("error", JStr (message_or error "Unknown error"))])).

(** The handler of [check-job-status], lines 383-411. *)
Definition check_job_status (answer : Outcome Response) (job_id : string)
    : Run Event JsVal :=
  catchR
    (res <- awaitR (FetchJob job_id) answer ;;
     job <- liftR res.(json) ;;
     st <- liftR (get job "status") ;;
     video_url <- liftR (get job "video_url") ;;
     error <- liftR (get job "error") ;;
     retR (JObj [("job_id", JStr job_id);
                 ("status", st);
                 ("video_url", js_or video_url JNull);
                 ("error", js_or error JNull);
                 ("is_complete",
                  JBool (strict_eq_str st "completed" || strict_eq_str st "failed"))]))
    (fun error =>
       retR (JObj [("success", JBool false);
                   ("error", JStr (message_or error "Failed to check job status"))])).

(** The handler of [check-job-status] of the axios entry point,
    [src/unnamed/part_000] lines 203-237: [api.get] resolves with the parsed
    body as [response.data] or rejects. *)
Definition axios_check_job_status (answer : AxiosResult) (job_id : string)
    : Run Event JsVal :=
  catchR
    (data_ <- awaitR (FetchJob job_id)
                (match answer with
                 | Resolved data_ => Returns data_
                 | Rejected e _ => Throws e
                 end) ;;
     st <- liftR (destructure data_ "response.data" "status") ;;
     let video_url := opt_get data_ "video_url" in
     let error := opt_get data_ "error" in
     retR (JObj [("job_id", JStr job_id);
                 ("status", st);
                 ("video_url", js_or video_url JNull);
                 ("error", js_or error JNull);
                 ("is_complete",
                  JBool (strict_eq_str st "completed" || strict_eq_str st "failed"))]))
    (fun error =>
       retR (JObj [("success", JBool false);
                   ("error", JStr (message_or error "Failed to check job status"))])).

(** The API posts of a run, and whether a call carries a payment proof. *)
Definition is_post (c : Call) : bool :=
  match c with PostApi _ _ _ => true | Sub _ => false end.

Definition is_paid_post (c : Call) : bool :=
  match c with PostApi _ _ (Some _) => true | _ => false end.

Definition is_fetch_job (ev : Event) : bool :=
  match ev with FetchJob _ => true | _ => false end.

Definition count_posts (t : list Call) : nat :=
  List.length (filter is_post t).

(** The number of status requests of a run. *)
Definition count_fetches (t : list Event) : nat :=
  List.length (filter is_fetch_job t).

End Tools.

(* ================================================================== *)
(** * A concrete platform, used to run the program on examples *)
(* ================================================================== *)

Module Demo.

(** Decimal digits read as a number; anything else is NaN. *)
Fixpoint digits_value (acc : Z) (s : string) : option Z :=
  match s with
  | EmptyString => Some acc
  | String c rest =>
      let d := (Z.of_nat (nat_of_ascii c) - 48)%Z in
      if ((0 <=? d) && (d <=? 9))%Z then digits_value (10 * acc + d)%Z rest else None
  end.

Definition parse_number (s : string) : float :=
  match s with
  | EmptyString => 0%float
  | _ => match digits_value 0 s with
         | Some z => PrimFloat.of_uint63 (Uint63.of_Z z)
         | None => PrimFloat.nan
         end
  end.

Definition print_number (n : float) : string :=
  if PrimFloat.is_nan n then "NaN"
  else NilEmpty.string_of_int (Z.to_int (trunc n)).

#[export] Instance runtime : Runtime := {|
  StringToNumber := parse_number;
  NumberToString := print_number;
  Buffer_from_object := fun _ =>
    Throws (TypeError "The first argument must be of type string or an instance of Buffer, ArrayBuffer, or Array or an Array-like Object.");
|}.

Definition base58_alphabet : string :=
  "123456789ABCDEFGHJKLMNPQRSTUVWXYZabcdefghijkmnopqrstuvwxyz".

Fixpoint index_of (c : ascii) (alphabet : string) (i : Z) : option Z :=
  match alphabet with
  | EmptyString => None
  | String a rest => if Ascii.eqb a c then Some i else index_of c rest (i + 1)%Z
  end.

Fixpoint base58_value (acc : Z) (s : string) : option Z :=
  match s with
  | EmptyString => Some acc
  | String c rest =>
      match index_of c base58_alphabet 0 with
      | Some d => base58_value (58 * acc + d)%Z rest
      | None => None
      end
  end.

Fixpoint leading_ones (s : string) : Z :=
  match s with
  | String "1" rest => (1 + leading_ones rest)%Z
  | _ => 0%Z
  end.

(** The number of bytes a base58 string decodes to. *)
Definition base58_length (s : string) : option Z :=
  match base58_value 0 s with
  | Some v => Some (leading_ones s + (Z.log2 v + 8) / 8 * (if (v =? 0)%Z then 0 else 1))%Z
  | None => None
  end.

(** Keys are kept in their base58 text; a string is a key when it decodes to
    32 bytes. *)
Definition parse_key (v : JsVal) : Outcome string :=
  match v with
  | JStr s =>
      match base58_length s with
      | Some 32%Z => Returns s
      | Some _ => Throws (Error "Invalid public key input")
      | None => Throws (Error "Non-base58 character")
      end
  | _ => Throws (Error "Invalid public key input")
  end.

#[export] Instance platform_keys : Keys := {|
  Key := string;
  Keypair := string;
  publicKey := fun kp => kp;
  PublicKey := parse_key;
  toBase58 := fun k => k;
|}.

Definition is_integer (n : float) : bool :=
  match Prim2SF n with
  | S754_zero _ => true
  | S754_finite _ m e => ((0 <=? e) || (Z.land (Zpos m) (2 ^ (- e) - 1) =? 0))%Z
  | _ => false
  end.

Fixpoint le_bytes (width : nat) (z : Z) : list Z :=
  match width with
  | O => []
  | S w => (z mod 256)%Z :: le_bytes w (z / 256)%Z
  end.

(** A token transfer: source and destination writable, the owner signs; the
    data is the instruction tag 3 and the amount as a 64-bit integer. *)
Definition transfer_instruction (source destination owner : string)
    (amount : float) (multiSigners : list string) (programId : string)
    : Outcome (@TransactionInstruction platform_keys) :=
  if is_integer amount then
    Returns {| keys := [ {| pubkey := source; isSigner := false; isWritable := true |};
                         {| pubkey := destination; isSigner := false; isWritable := true |};
                         {| pubkey := owner; isSigner := true; isWritable := false |} ];
               programId := programId;
               data := 3%Z :: le_bytes 8 (trunc amount) |}
  else Throws (mkExn "RangeError" "The number cannot be converted to a BigInt because it is not an integer").

Definition sign (tx : @Transaction platform_keys) (kp : string) : Outcome (@Transaction platform_keys) :=
  Returns {| recentBlockhash := tx.(recentBlockhash);
             feePayer := tx.(feePayer);
             instructions := tx.(instructions);
             signatures := [ {| signature := Some (utf8 kp); signer := kp |} ] |}.

(** A readable stand-in for the wire format: anchor, fee payer, the program
    of each instruction, and the number of signatures. *)
Definition serialize (tx : @Transaction platform_keys) (config : SerializeConfig)
    : Outcome string :=
  match tx.(recentBlockhash), tx.(feePayer) with
  | Some bh, Some fp =>
      Returns (bh ++ "|" ++ fp ++ "|"
               ++ String.concat "," (map (fun ix => ix.(programId)) tx.(instructions))
               ++ "|" ++ nat_to_string (List.length tx.(signatures)))
  | None, _ => Throws (Error "Transaction recentBlockhash required")
  | _, None => Throws (Error "Transaction fee payer required")
  end.

#[export] Instance solana : Solana := {|
  getAssociatedTokenAddress := fun mint owner => Returns ("ata:" ++ mint ++ ":" ++ owner);
  TOKEN_PROGRAM_ID := "TokenkegQfeZyiNwAJbNbGKPFXCWuBvf9Ss623VQ5DA";
  createTransferInstruction := transfer_instruction;
  partialSign := sign;
  serialize_base64 := serialize;
|}.

Definition UNREEL_API_URL : string := "https://x402.unreel.ai".
Definition wallet : string := "Vote111111111111111111111111111111111111111".
Definition USDC : string := "EPjFWdd5AufqSSqeM2qN1xzybapC8G4wEGGkZwyTDt1v".
Definition Addr1 : string := "So11111111111111111111111111111111111111112".
Definition SponsorA : string := "SysvarRent111111111111111111111111111111111".
Definition SponsorB : string := "Stake11111111111111111111111111111111111111".
Definition KoraProgram : string := "ComputeBudget111111111111111111111111111111".

(** The challenge of the design document's scenario. *)
Definition challenge : PaymentRequirements := {|
  network := "solana:5eykt4UsFv8P8NJdTREpY1vzqKqZKvdp";
  payTo := Addr1;
  asset := USDC;
  maxAmountRequired := "25000000";
  extra := None;
|}.

Definition supported_ok : JsVal :=
  JObj [("kinds", JArr [JObj [("extra", JObj [("feePayer", JStr SponsorA)])]])].

Definition instruction_ok : JsVal :=
  JObj [("payment_instruction",
         JObj [("programAddress", JStr KoraProgram);
               ("accounts", JArr [JObj [("address", JStr wallet); ("role", JNum 3)];
                                  JObj [("address", JStr SponsorB); ("role", JNum 1)]]);
               ("data", JArr [JNum 2; JNum 0; JNum 1])]);
        ("signer_address", JStr SponsorB)].

Definition settle_ok : JsVal :=
  JObj [("success", JBool true); ("transaction", JStr "5Sig")].

Definition services : Services := {|
  supportedRes := Returns supported_ok;
  latestBlockhash := Returns "Blockhash1";
  paymentInstructionRes := Returns instruction_ok;
  settleRes := Returns settle_ok;
|}.

(** The run of [handlePayment] on this platform. *)
Definition pay (net : Services) (requirements : PaymentRequirements) : M JsVal :=
  handlePayment UNREEL_API_URL wallet net requirements.

Definition signed_tx : string :=
  "Blockhash1|Stake11111111111111111111111111111111111111|TokenkegQfeZyiNwAJbNbGKPFXCWuBvf9Ss623VQ5DA,ComputeBudget111111111111111111111111111111|1".

(** The same challenge on another network, and with a zero amount. *)
Definition devnet_challenge : PaymentRequirements := {|
  network := "solana-devnet";
  payTo := Addr1;
  asset := USDC;
  maxAmountRequired := "25000000";
  extra := None;
|}.

Definition zero_challenge : PaymentRequirements := {|
  network := "solana:5eykt4UsFv8P8NJdTREpY1vzqKqZKvdp";
  payTo := Addr1;
  asset := USDC;
  maxAmountRequired := "0";
  extra := None;
|}.

(** A challenge whose recipient is not an address. *)
Definition malformed_challenge : PaymentRequirements := {|
  network := "solana:5eykt4UsFv8P8NJdTREpY1vzqKqZKvdp";
  payTo := "Addr1";
  asset := USDC;
  maxAmountRequired := "25000000";
  extra := None;
|}.

(** The relay refuses the instruction; the relay answers the settlement
    request without a success flag. *)
Definition no_funds : JsVal := JObj [("error", JStr "no funds")].

Definition services_rejecting : Services := {|
  supportedRes := Returns supported_ok;
  latestBlockhash := Returns "Blockhash1";
  paymentInstructionRes := Returns no_funds;
  settleRes := Returns settle_ok;
|}.


(** The answer to a status request for a job the service does not know. *)
Definition missing_job : Response := {|
  status := 404;
  json := Returns (JObj [("error", JStr "Job not found")]);
|}.

(** The answers of the scenario "pending, pending, completed". *)
Definition job_in (st : string) : Outcome Response :=
  Returns {| status := 200; json := Returns (JObj [("status", JStr st)]) |}.

Definition completes_third (attempt : nat) : Outcome Response :=
  if Nat.ltb attempt 2 then job_in "pending" else job_in "completed".

(** A discovery response that advertises no fee payer. *)
Definition supported_empty : JsVal := JObj [("kinds", JArr [])].

Definition services_without_sponsor : Services := {|
  supportedRes := Returns supported_empty;
  latestBlockhash := Returns "Blockhash1";
  paymentInstructionRes := Returns instruction_ok;
  settleRes := Returns settle_ok;
|}.

(** A relay instruction whose second account reference is no address. *)
Definition instruction_bad_account : JsVal :=
  JObj [("programAddress", JStr KoraProgram);
        ("accounts", JArr [JObj [("address", JStr wallet); ("role", JNum 3)];
                           JObj [("address", JStr "nobody"); ("role", JNum 1)];
                           JObj [("address", JStr SponsorB); ("role", JNum 1)]]);
        ("data", JArr [JNum 2; JNum 0; JNum 1])].

Definition services_bad_account : Services := {|
  supportedRes := Returns supported_ok;
  latestBlockhash := Returns "Blockhash1";
  paymentInstructionRes :=
    Returns (JObj [("payment_instruction", instruction_bad_account);
                   ("signer_address", JStr SponsorB)]);
  settleRes := Returns settle_ok;
|}.

(** The responses of the paid API: the job is accepted; payment is required
    for the challenge of the scenario; the service fails. *)
Definition job_created : JsVal :=
  JObj [("job_id", JStr "job-1");
        ("status", JStr "queued");
        ("status_url", JStr "/api/jobs/job-1")].

Definition accepted : ApiResponse := {|
  http_status := 202;
  text := Returns "{}";
  parsed := Returns job_created;
  accepts := Throws (TypeError "Cannot read properties of undefined (reading '0')");
|}.

Definition payment_required : ApiResponse := {|
  http_status := 402;
  text := Returns "{}";
  parsed := Returns (JObj [("x402Version", JNum 2);
                           ("accepts",
                            JArr [JObj [("network", JStr challenge.(network));
                                        ("payTo", JStr Addr1);
                                        ("asset", JStr USDC);
                                        ("maxAmountRequired", JStr "25000000")]])]);
  accepts := Returns [challenge];
|}.

Definition server_error : ApiResponse := {|
  http_status := 500;
  text := Returns "Internal Server Error";
  parsed := Throws (mkExn "SyntaxError" "Unexpected token 'I', is not valid JSON");
  accepts := Throws (mkExn "SyntaxError" "Unexpected token 'I', is not valid JSON");
|}.

Definition api_free : Api := {|
  initialRes := Returns accepted;
  paidRes := Returns accepted;
|}.

Definition api_paywalled : Api := {|
  initialRes := Returns payment_required;
  paidRes := Returns accepted;
|}.

(** The arguments of a call of [generate-video], without and with waiting. *)
Definition video_args : GenerateVideo := {|
  prompt := "A sunset over the ocean";
  reference_images := None;
  webhook_url := None;
  webhook_secret := None;
  wait_for_completion := None;
|}.

Definition video_args_waiting : GenerateVideo := {|
  prompt := "A sunset over the ocean";
  reference_images := None;
  webhook_url := None;
  webhook_secret := None;
  wait_for_completion := Some true;
|}.

(** The answers "processing, processing, completed with a video". *)
Definition finished_job : JsVal :=
  JObj [("status", JStr "completed"); ("video_url", JStr "https://cdn.unreel.ai/job-1.mp4")].

Definition completes_with_video (attempt : nat) : Outcome Response :=
  if Nat.ltb attempt 2 then job_in "processing"
  else Returns {| status := 200; json := Returns finished_job |}.

(** An [api.get] that axios rejects because of a 404. *)
Definition rejects_404 (attempt : nat) : AxiosResult :=
  Rejected (Error "Request failed with status code 404") (Some 404%float).

End Demo.

(* ================================================================== *)
(** * Properties *)
(* ================================================================== *)

Section Properties.

Context {rt : Runtime} {K : Keys} {sol : Solana}.
Variable UNREEL_API_URL : string.
Variable wallet : Keypair.

(** ** Sequencing *)

Lemma bind_lift_returns {A B} (a : A) (k : A -> M B) :
  bind (lift (Returns a)) k = k a.
Proof. unfold bind, lift. destruct (k a); reflexivity. Qed.

Lemma bind_lift_throws {A B} (e : Exn) (k : A -> M B) :
  bind (lift (Throws e)) k = ([], Throws e).
Proof. reflexivity. Qed.

Lemma bind_await_returns {A B} (ev : Event) (a : A) (k : A -> M B) :
  bind (await ev (Returns a)) k = (ev :: trace (k a), outcome (k a)).
Proof. unfold bind, await. destruct (k a); reflexivity. Qed.

Lemma bind_await_throws {A B} (ev : Event) (e : Exn) (k : A -> M B) :
  bind (await ev (Throws e)) k = ([ev], Throws e).
Proof. reflexivity. Qed.

Lemma get_returns_again (v : JsVal) (k k' : string) (x : JsVal) :
  get v k = Returns x -> get v k' = Returns (opt_get v k').
Proof. destruct v; simpl; intros; try discriminate; reflexivity. Qed.

(** ** Floating-point comparisons *)



(** ** Account roles *)

(** C3.  For every account reference of the relay instruction whose address
    is a key, the [accounts.map] callback yields an account entry for each of
    the roles 0 to 3, with the flags: role 0 is neither signer nor writable,
    role 1 is writable only, role 2 is signer only, role 3 is both. *)
Theorem role_mapping (account address : JsVal) (pk : Key) :
  get account "address" = Returns address ->
  PublicKey address = Returns pk ->
  (get account "role" = Returns (JNum 0) ->
   koraKey account = Returns {| pubkey := pk; isSigner := false; isWritable := false |}) /\
  (get account "role" = Returns (JNum 1) ->
   koraKey account = Returns {| pubkey := pk; isSigner := false; isWritable := true |}) /\
  (get account "role" = Returns (JNum 2) ->
   koraKey account = Returns {| pubkey := pk; isSigner := true; isWritable := false |}) /\
  (get account "role" = Returns (JNum 3) ->
   koraKey account = Returns {| pubkey := pk; isSigner := true; isWritable := true |}).
Proof.
  intros Haddr Hpk. unfold koraKey. rewrite Haddr. simpl. rewrite Hpk. simpl.
  repeat split; intros Hrole; rewrite Hrole; reflexivity.
Qed.

(** ** Payload normalisation *)

Lemma byte_roundtrip (b : Z) :
  (0 <= b < 256)%Z -> ToUint8 (byte_num b) = b.
Proof.
  intros Hb.
  assert (all : forallb (fun n => (ToUint8 (byte_num (Z.of_nat n)) =? Z.of_nat n)%Z)
                        (seq 0 256) = true) by (vm_compute; reflexivity).
  rewrite forallb_forall in all.
  specialize (all (Z.to_nat b)).
  rewrite Z2Nat.id in all by lia.
  apply Z.eqb_eq, all, in_seq. lia.
Qed.

(** C10, as the code has it.  The payload is normalised, without an error,
    in these cases: an array maps to its elements converted to bytes, and an
    array of byte values to those bytes; an object whose [data] field is an
    array maps to the bytes of that array; an object whose [data] field is
    absent or falsy maps to the sequence of its values; a value that is
    neither an array nor of type object (undefined, a boolean, a number, a
    string) maps to the empty sequence. *)
Theorem dataBuffer_shapes :
  (forall elems, dataBuffer (JArr elems) = Returns (map ToUint8 elems)) /\
  (forall bytes, Forall (fun b => (0 <= b < 256)%Z) bytes ->
     dataBuffer (JArr (map byte_num bytes)) = Returns bytes) /\
  (forall props inner, lookup "data" props = JArr inner ->
     dataBuffer (JObj props) = Returns (map ToUint8 inner)) /\
  (forall props, truthy (lookup "data" props) = false ->
     dataBuffer (JObj props) = Returns (map ToUint8 (map snd props))) /\
  (forall v, isArray v = false -> typeof_object v = false ->
     dataBuffer v = Returns []).
Proof.
  split; [|split; [|split; [|split]]].
  - reflexivity.
  - intros bytes Hall. unfold dataBuffer. simpl. f_equal.
    induction Hall as [|b bs Hb _ IH]; simpl.
    + reflexivity.
    + rewrite (byte_roundtrip Hb), IH. reflexivity.
  - intros props inner Hdata. unfold dataBuffer. simpl. rewrite Hdata. reflexivity.
  - intros props Hdata. unfold dataBuffer. simpl. rewrite Hdata. reflexivity.
  - intros v Harr Hobj. destruct v; try discriminate; reflexivity.
Qed.

(** ** Back-off of the polling loop *)

Lemma delay_after_next (k : nat) (d : float) :
  delay_after k (next_delay d) = next_delay (delay_after k d).
Proof. induction k as [|k IH]; simpl; [reflexivity | now rewrite IH]. Qed.




(** ** The run of [handlePayment] up to the settlement request *)

Lemma bind_await_lift {A B} (ev : Event) (o : Outcome A) (f : A -> Outcome B) :
  bind (await ev o) (fun x => lift (f x)) = ([ev], bindO o f).
Proof. destruct o; reflexivity. Qed.

(** A branch in which the run has stopped before the call looked for. *)
Ltac stopped_before :=
  cbn [trace outcome fst snd In];
  let H := fresh "H" in
  intros H;
  repeat (destruct H as [H|H]; [discriminate H|]); contradiction.

(** A branch in which the run has thrown. *)
Ltac has_thrown :=
  cbn [trace outcome fst snd]; intros; discriminate.

(** One step of a run: the next [lift] or [await] either returns, and the
    run goes on, or throws, and [failure] closes the branch. *)
Ltac run_step failure :=
  match goal with
  | |- context [bind (await _ _) (fun x => lift _)] =>
      rewrite bind_await_lift
  | |- context [bind (lift (Returns _)) _] =>
      rewrite bind_lift_returns; cbv beta
  | |- context [bind (lift (Throws _)) _] =>
      rewrite bind_lift_throws
  | |- context [bind (await _ (Returns _)) _] =>
      rewrite bind_await_returns; cbv beta
  | |- context [bind (await _ (Throws _)) _] =>
      rewrite bind_await_throws
  | |- context [bind (lift ?o) _] =>
      let E := fresh "E" in
      destruct o eqn:E;
      [ rewrite bind_lift_returns; cbv beta
      | rewrite bind_lift_throws; failure ]
  | |- context [bind (await ?ev ?o) _] =>
      let E := fresh "E" in
      destruct o eqn:E;
      [ rewrite bind_await_returns; cbv beta
      | rewrite bind_await_throws; failure ]
  end.

(** When the settlement endpoint is called, every earlier step has returned:
    the values computed are related as the code relates them, the calls made
    are the four network calls in order, and the result is that of the check
    of the settlement response. *)
Lemma settle_reached (net : Services) (req : PaymentRequirements)
    (tenantId : string) (body : JsVal) :
  In (FetchSettle tenantId body) (trace (handlePayment UNREEL_API_URL wallet net req)) ->
  exists n : Negotiation,
    negotiated wallet net req n /\
    tenantId = tenantId_of req /\
    body = settleBody UNREEL_API_URL n.(signedTx) req n.(signerAddress) /\
    handlePayment UNREEL_API_URL wallet net req =
      ([FetchSupported (tenantId_of req);
        GetLatestBlockhash;
        FetchPaymentInstruction (tenantId_of req)
          (paymentInstructionBody wallet n.(baseTx) req);
        FetchSettle (tenantId_of req)
          (settleBody UNREEL_API_URL n.(signedTx) req n.(signerAddress))],
       bindO net.(settleRes) settled).
Proof.
  unfold handlePayment. cbv zeta.
  repeat run_step stopped_before.
  cbn [trace outcome fst snd].
  intros H.
  repeat (destruct H as [H|H]; [try discriminate H|]); [|contradiction].
  injection H as <- <-.
  match goal with
  | E : paymentInstruction_of _ = Returns ?p |- _ => destruct p as [pinstr signerAddr]
  end.
  cbn [fst snd] in *.
  match goal with
  | E1 : PublicKey (JStr (payTo req)) = Returns ?a1,
    E2 : PublicKey (JStr (asset req)) = Returns ?a2,
    E3 : supportedRes net = Returns ?a3,
    E4 : feePayerAddress_of _ = Returns ?a4,
    E5 : getAssociatedTokenAddress _ (publicKey wallet) = Returns ?a5,
    E6 : getAssociatedTokenAddress _ ?a1 = Returns ?a6,
    E7 : latestBlockhash net = Returns ?a7,
    E8 : PublicKey ?a4 = Returns ?a8,
    E9 : createTransferInstruction _ _ _ _ _ _ = Returns ?a9,
    E10 : serialize_base64 _ unsigned = Returns ?a10,
    E11 : paymentInstructionRes net = Returns ?a11,
    E13 : PublicKey signerAddr = Returns ?a13,
    E14 : koraInstruction_of _ = Returns ?a14,
    E15 : partialSign _ _ = Returns ?a15,
    E16 : serialize_base64 _ partiallySigned = Returns ?a16 |- _ =>
      exists {| payTo_ := a1; usdcMint := a2; supportedInfo := a3;
                feePayerAddress := a4; senderUsdcAccount := a5;
                recipientUsdcAccount := a6; blockhash := a7; feePayerKey := a8;
                transfer := a9; baseTx := a10; paymentInstructionData := a11;
                paymentInstruction := pinstr; signerAddress := signerAddr;
                signerKey := a13; koraInstruction := a14; signed := a15;
                signedTx := a16 |}
  end.
  unfold negotiated, firstDraft, finalDraft. cbn.
  repeat split; assumption.
Qed.

(** A run that returns has called the settlement endpoint. *)
Lemma returns_settles (net : Services) (req : PaymentRequirements) (tx : JsVal) :
  outcome (handlePayment UNREEL_API_URL wallet net req) = Returns tx ->
  exists body,
    In (FetchSettle (tenantId_of req) body)
       (trace (handlePayment UNREEL_API_URL wallet net req)).
Proof.
  unfold handlePayment. cbv zeta.
  repeat run_step has_thrown.
  cbn [trace outcome fst snd]. intros _.
  eexists. do 3 right. left. reflexivity.
Qed.

(** ** The checks of the relay's responses *)

Lemma feePayerAddress_of_returns (info a : JsVal) :
  feePayerAddress_of info = Returns a ->
  a = opt_get (opt_get (opt_get0 (opt_get info "kinds")) "extra") "feePayer" /\
  truthy a = true.
Proof.
  unfold feePayerAddress_of.
  destruct (get info "kinds") as [kinds|e] eqn:Hk; simpl; [|discriminate].
  assert (kinds = opt_get info "kinds") as ->
    by (destruct info; simpl in *; congruence).
  set (ks := opt_get info "kinds").
  destruct (truthy (opt_get (opt_get (opt_get0 ks) "extra") "feePayer")) eqn:Ht;
    simpl; [|discriminate].
  assert (H0 : get0 ks = Returns (opt_get0 ks)).
  { destruct ks as [| | | |[|c r]| |]; simpl in *; try discriminate; reflexivity. }
  rewrite H0. simpl.
  assert (H1 : get (opt_get0 ks) "extra" = Returns (opt_get (opt_get0 ks) "extra")).
  { destruct (opt_get0 ks); simpl in *; try discriminate; reflexivity. }
  rewrite H1. simpl.
  assert (H2 : get (opt_get (opt_get0 ks) "extra") "feePayer"
               = Returns (opt_get (opt_get (opt_get0 ks) "extra") "feePayer")).
  { destruct (opt_get (opt_get0 ks) "extra"); simpl in *; try discriminate; reflexivity. }
  rewrite H2. intros [= <-]. split; [reflexivity | exact Ht].
Qed.

Lemma get_opt_get (v x : JsVal) (k : string) :
  get v k = Returns x -> x = opt_get v k.
Proof. destruct v; simpl in *; congruence. Qed.

Lemma paymentInstruction_of_returns (pid pinstr signerAddr : JsVal) :
  paymentInstruction_of pid = Returns (pinstr, signerAddr) ->
  truthy (opt_get pid "error") = false /\
  pinstr = opt_get pid "payment_instruction" /\
  truthy pinstr = true /\
  get pid "signer_address" = Returns signerAddr.
Proof.
  unfold paymentInstruction_of.
  destruct (get pid "error") as [err|e] eqn:He; simpl; [|discriminate].
  destruct (get pid "payment_instruction") as [p|e] eqn:Hp; simpl; [|discriminate].
  apply get_opt_get in He, Hp. subst err p.
  destruct (truthy (opt_get pid "error")); simpl; [discriminate|].
  destruct (truthy (opt_get pid "payment_instruction")) eqn:Ht; simpl; [|discriminate].
  destruct (get pid "signer_address") as [sa|e] eqn:Hs; simpl; [|discriminate].
  intros [= <- <-]. repeat split; assumption.
Qed.



Lemma settled_returns (settleData tx : JsVal) :
  settled settleData = Returns tx ->
  truthy (opt_get settleData "success") = true /\
  tx = opt_get settleData "transaction".
Proof.
  unfold settled.
  destruct (get settleData "success") as [s|e] eqn:Hs; simpl; [|discriminate].
  pose proof (get_returns_again _ _ "transaction" Hs) as Ht.
  pose proof (get_returns_again _ _ "errorReason" Hs) as Hr.
  pose proof (get_returns_again _ _ "error" Hs) as He.
  apply get_opt_get in Hs. subst s.
  destruct (truthy (opt_get settleData "success")); simpl.
  - rewrite Ht. intros [= <-]. split; reflexivity.
  - rewrite Hr, He. simpl. discriminate.
Qed.






(** ** Fee payer and anchor of the final draft *)

(** C1.  A run that returns has called the settlement endpoint; and whenever
    the settlement endpoint is called, the draft that was signed and sent has
    the key of the relay's [signer_address] as fee payer and the anchor of
    the first draft, the request names [signer_address] as fee payer, and
    neither is the sponsor of step 1 when the relay assigned another. *)
Theorem relay_signer_pays (net : Services) (req : PaymentRequirements) :
  (forall tx,
     outcome (handlePayment UNREEL_API_URL wallet net req) = Returns tx ->
     exists body,
       In (FetchSettle (tenantId_of req) body)
          (trace (handlePayment UNREEL_API_URL wallet net req))) /\
  (forall tenantId body,
     In (FetchSettle tenantId body)
        (trace (handlePayment UNREEL_API_URL wallet net req)) ->
     exists n : Negotiation,
       negotiated wallet net req n /\
       get n.(paymentInstructionData) "signer_address" = Returns n.(signerAddress) /\
       body = settleBody UNREEL_API_URL n.(signedTx) req n.(signerAddress) /\
       (finalDraft n).(feePayer) = Some n.(signerKey) /\
       (firstDraft n).(feePayer) = Some n.(feePayerKey) /\
       (finalDraft n).(recentBlockhash) = (firstDraft n).(recentBlockhash) /\
       (firstDraft n).(recentBlockhash) = Some n.(blockhash) /\
       opt_get (opt_get (opt_get body "paymentRequirements") "extra") "feePayer"
         = n.(signerAddress) /\
       (n.(signerKey) <> n.(feePayerKey) ->
        (finalDraft n).(feePayer) <> Some n.(feePayerKey)) /\
       (n.(signerAddress) <> n.(feePayerAddress) ->
        opt_get (opt_get (opt_get body "paymentRequirements") "extra") "feePayer"
          <> n.(feePayerAddress))).
Proof.
  split.
  - intros tx. apply returns_settles.
  - intros tenantId body Hin.
    destruct (settle_reached _ _ _ _ Hin) as (n & Hn & _ & -> & _).
    exists n. split; [exact Hn|].
    destruct Hn as (_ & _ & _ & _ & _ & _ & _ & _ & _ & _ & _ & Hpi & _).
    apply paymentInstruction_of_returns in Hpi as (_ & _ & _ & Hsa).
    split; [exact Hsa|].
    repeat split; try reflexivity.
    + intros Hne [= Heq]. exact (Hne Heq).
    + exact (fun Hne => Hne).
Qed.

(** ** Instructions of the two drafts *)

(** C2.  Whenever the settlement endpoint is called, the first draft holds
    the transfer instruction alone and the final draft holds that same
    instruction followed by the relay's, whose account entries follow the
    order of the relay's account references; the final draft is the first one
    with the fee payer replaced and the relay instruction appended. *)
Theorem final_draft_instructions (net : Services) (req : PaymentRequirements)
    (tenantId : string) (body : JsVal) :
  In (FetchSettle tenantId body)
     (trace (handlePayment UNREEL_API_URL wallet net req)) ->
  exists n : Negotiation,
    negotiated wallet net req n /\
    body = settleBody UNREEL_API_URL n.(signedTx) req n.(signerAddress) /\
    createTransferInstruction n.(senderUsdcAccount) n.(recipientUsdcAccount)
      (publicKey wallet) (StringToNumber req.(maxAmountRequired)) []
      TOKEN_PROGRAM_ID = Returns n.(transfer) /\
    (firstDraft n).(instructions) = [n.(transfer)] /\
    (finalDraft n).(instructions) = [n.(transfer); n.(koraInstruction)] /\
    Array_map (opt_get n.(paymentInstruction) "accounts") koraKey
      = Returns n.(koraInstruction).(keys) /\
    finalDraft n = add (set_feePayer (firstDraft n) n.(signerKey)) n.(koraInstruction).
Proof.
  intros Hin.
  destruct (settle_reached _ _ _ _ Hin) as (n & Hn & _ & -> & _).
  exists n. split; [exact Hn|].
  destruct Hn as (_ & _ & _ & _ & _ & _ & _ & _ & Htr & _ & _ & _ & _ & Hk & _).
  repeat split; try reflexivity; try assumption.
  revert Hk. unfold koraInstruction_of.
  destruct (get (paymentInstruction n) "data") as [payload|e]; simpl; [|discriminate].
  destruct (dataBuffer payload) as [buffer|e]; simpl; [|discriminate].
  destruct (get (paymentInstruction n) "accounts") as [accounts|e] eqn:Ha;
    simpl; [|discriminate].
  apply get_opt_get in Ha. subst accounts.
  destruct (Array_map _ koraKey) as [ks|e]; simpl; [|discriminate].
  destruct (get (paymentInstruction n) "programAddress") as [pa|e]; simpl; [|discriminate].
  destruct (PublicKey pa) as [pk|e]; simpl; [|discriminate].
  intros [= <-]. reflexivity.
Qed.

(** ** Malformed addresses *)

(** C4, as the code has it.  When the recipient or the asset address of the
    challenge is rejected by the key constructor, the run ends with that
    exception before any network call: no draft is built and no later step
    is reached. *)
Theorem malformed_address_stops (net : Services) (req : PaymentRequirements)
    (e : Exn) :
  PublicKey (JStr req.(payTo)) = Throws e \/
  (returned (PublicKey (JStr req.(payTo))) = true /\
   PublicKey (JStr req.(asset)) = Throws e) ->
  handlePayment UNREEL_API_URL wallet net req = ([], Throws e).
Proof.
  unfold handlePayment. cbv zeta.
  intros [H | [Hp H]].
  - rewrite H. reflexivity.
  - destruct (PublicKey (JStr (payTo req))); [|discriminate].
    rewrite bind_lift_returns, H. reflexivity.
Qed.

(** ** Rejection by the relay *)


(** ** Settlement *)


(** ** The settlement request *)

(** C7, as the code has it.  The settlement request wraps the signed
    transaction in an envelope of scheme "exact" whose network is the fixed
    identifier [SOLANA_MAINNET] (the challenge's network when the challenge
    names that one), repeats the challenge's amount, recipient and asset, and
    names the relay's [signer_address] as fee payer. *)
Theorem settle_request_envelope (net : Services) (req : PaymentRequirements)
    (tenantId : string) (body : JsVal) :
  In (FetchSettle tenantId body)
     (trace (handlePayment UNREEL_API_URL wallet net req)) ->
  exists n : Negotiation,
    negotiated wallet net req n /\
    get n.(paymentInstructionData) "signer_address" = Returns n.(signerAddress) /\
    tenantId = tenantId_of req /\
    let payload := opt_get body "paymentPayload" in
    let requirements := opt_get body "paymentRequirements" in
    opt_get (opt_get payload "payload") "transaction" = JStr n.(signedTx) /\
    opt_get payload "scheme" = JStr "exact" /\
    opt_get payload "network" = JStr SOLANA_MAINNET /\
    opt_get requirements "scheme" = JStr "exact" /\
    opt_get requirements "network" = JStr SOLANA_MAINNET /\
    opt_get requirements "maxAmountRequired" = JStr req.(maxAmountRequired) /\
    opt_get requirements "payTo" = JStr req.(payTo) /\
    opt_get requirements "asset" = JStr req.(asset) /\
    opt_get (opt_get requirements "extra") "feePayer" = n.(signerAddress) /\
    (req.(network) = SOLANA_MAINNET ->
     opt_get payload "network" = JStr req.(network) /\
     opt_get requirements "network" = JStr req.(network)).
Proof.
  intros Hin.
  destruct (settle_reached _ _ _ _ Hin) as (n & Hn & -> & -> & _).
  exists n. split; [exact Hn|].
  destruct Hn as (_ & _ & _ & _ & _ & _ & _ & _ & _ & _ & _ & Hpi & _).
  apply paymentInstruction_of_returns in Hpi as (_ & _ & _ & Hsa).
  split; [exact Hsa|]. split; [reflexivity|].
  cbv zeta. repeat split; try reflexivity; rewrite H; reflexivity.
Qed.

(** ** Outcomes of the polling loops *)

Lemma get_error_after_status (job st : JsVal) :
  get job "status" = Returns st ->
  get job "error" = Returns (opt_get job "error").
Proof. apply get_returns_again. Qed.

(** One pass of the loop of [src/index.ts]. *)
Lemma poll_loop_pass (jobs : nat -> Outcome Response) (jobId : string)
    (maxAttempts remaining attempt : nat) (delay : float) :
  poll_loop jobs jobId maxAttempts (S remaining) attempt delay =
  match observe (jobs attempt) with
  | Completed job => ([FetchJob jobId], Returns job)
  | Failed job =>
      ([FetchJob jobId],
       Throws (JobFailed (ToString (js_or (opt_get job "error") (JStr "Unknown error")))))
  | Broken e => ([FetchJob jobId], Throws e)
  | Pending =>
      let rest := poll_loop jobs jobId maxAttempts remaining (S attempt) (next_delay delay) in
      (FetchJob jobId :: SetTimeout delay :: trace rest, outcome rest)
  end.
Proof.
  cbn [poll_loop]. unfold observe, observe_job.
  destruct (jobs attempt) as [res|e]; [|reflexivity].
  rewrite bind_await_returns.
  destruct (json res) as [job|e]; [|reflexivity].
  rewrite bind_lift_returns.
  destruct (get job "status") as [st|e] eqn:Hst; [|reflexivity].
  rewrite bind_lift_returns.
  destruct (strict_eq_str st "completed"); [reflexivity|].
  destruct (strict_eq_str st "failed").
  - rewrite (get_error_after_status _ Hst). reflexivity.
  - rewrite bind_await_returns. reflexivity.
Qed.

(** One pass of the loop of the axios entry point. *)
Lemma axios_poll_loop_pass (api : nat -> AxiosResult) (jobId : string)
    (maxAttempts remaining attempt : nat) (delay : float) :
  axios_poll_loop api jobId maxAttempts (S remaining) attempt delay =
  match axios_observe jobId (api attempt) with
  | Completed job => ([FetchJob jobId], Returns job)
  | Failed job =>
      ([FetchJob jobId],
       Throws (JobFailed (ToString (js_or (opt_get job "error") (JStr "Unknown error")))))
  | Broken e => ([FetchJob jobId], Throws e)
  | Pending =>
      let rest :=
        axios_poll_loop api jobId maxAttempts remaining (S attempt) (next_delay delay) in
      (FetchJob jobId :: SetTimeout delay :: trace rest, outcome rest)
  end.
Proof.
  cbn [axios_poll_loop]. unfold axios_observe, observe_job.
  destruct (api attempt) as [data_|e rs]; [|reflexivity].
  rewrite bind_await_returns.
  destruct (get data_ "status") as [st|e] eqn:Hst; [|reflexivity].
  rewrite bind_lift_returns.
  destruct (strict_eq_str st "completed"); [reflexivity|].
  destruct (strict_eq_str st "failed").
  - rewrite (get_error_after_status _ Hst). reflexivity.
  - rewrite bind_await_returns. reflexivity.
Qed.

(** The common shape of the two loops: a loop that makes one pass as
    [poll_loop_pass] says goes through [k] pending observations to the pass
    that decides. *)
Section Loop.

Variable loop : nat -> nat -> float -> M JsVal.
Variable seen : nat -> Observation.
Variable jobId : string.
Variable timed_out : Exn.

Hypothesis loop_end : forall attempt delay, loop 0 attempt delay = ([], Throws timed_out).

Hypothesis loop_pass : forall remaining attempt delay,
  loop (S remaining) attempt delay =
  match seen attempt with
  | Completed job => ([FetchJob jobId], Returns job)
  | Failed job =>
      ([FetchJob jobId],
       Throws (JobFailed (ToString (js_or (opt_get job "error") (JStr "Unknown error")))))
  | Broken e => ([FetchJob jobId], Throws e)
  | Pending =>
      let rest := loop remaining (S attempt) (next_delay delay) in
      (FetchJob jobId :: SetTimeout delay :: trace rest, outcome rest)
  end.

Lemma loop_skips_pending (k : nat) :
  forall remaining attempt delay,
    (forall i, i < k -> seen (attempt + i) = Pending) ->
    outcome (loop (k + remaining) attempt delay) =
      outcome (loop remaining (attempt + k) (delay_after k delay)) /\
    timeouts (trace (loop (k + remaining) attempt delay)) =
      (map (fun i => delay_after i delay) (seq 0 k)
       ++ timeouts (trace (loop remaining (attempt + k) (delay_after k delay))))%list.
Proof.
  induction k as [|k IH]; intros remaining attempt delay Hp.
  - rewrite Nat.add_0_r. split; reflexivity.
  - assert (Hnow : seen attempt = Pending).
    { rewrite <- (Nat.add_0_r attempt). apply Hp. lia. }
    destruct (IH remaining (S attempt) (next_delay delay)) as [Ho Ht].
    { intros i Hi. cbn [Nat.add]. rewrite <- Nat.add_succ_r. apply Hp. lia. }
    cbn [Nat.add] in Ho, Ht. rewrite delay_after_next in Ho, Ht.
    cbn [Nat.add]. rewrite loop_pass, Hnow, Nat.add_succ_r.
    cbv zeta. cbn [outcome trace fst snd timeouts delay_after].
    rewrite Ho, Ht. split; [reflexivity|].
    cbn [seq map delay_after app]. f_equal. f_equal.
    rewrite <- seq_shift, map_map.
    apply map_ext. intros i. cbn [delay_after]. apply delay_after_next.
Qed.

Lemma loop_decides (maxAttempts k : nat) (initialDelay : float) :
  k < maxAttempts ->
  (forall i, i < k -> seen i = Pending) ->
  seen k <> Pending ->
  outcome (loop maxAttempts 0 initialDelay) =
    match seen k with
    | Completed job => Returns job
    | Failed job =>
        Throws (JobFailed (ToString (js_or (opt_get job "error") (JStr "Unknown error"))))
    | Broken e => Throws e
    | Pending => Throws timed_out
    end /\
  timeouts (trace (loop maxAttempts 0 initialDelay)) =
    map (fun i => delay_after i initialDelay) (seq 0 k).
Proof.
  intros Hk Hp Hd.
  replace maxAttempts with (k + S (maxAttempts - S k)) by lia.
  destruct (@loop_skips_pending k (S (maxAttempts - S k)) 0 initialDelay Hp) as [Ho Ht].
  rewrite Ho, Ht, loop_pass. cbn [Nat.add].
  destruct (seen k); try contradiction; cbn [outcome trace fst snd timeouts];
    rewrite ?app_nil_r; split; reflexivity.
Qed.

Lemma loop_times_out (maxAttempts : nat) (initialDelay : float) :
  (forall i, i < maxAttempts -> seen i = Pending) ->
  outcome (loop maxAttempts 0 initialDelay) = Throws timed_out /\
  timeouts (trace (loop maxAttempts 0 initialDelay)) =
    map (fun i => delay_after i initialDelay) (seq 0 maxAttempts).
Proof.
  intros Hp.
  destruct (@loop_skips_pending maxAttempts 0 0 initialDelay Hp) as [Ho Ht].
  rewrite Nat.add_0_r in Ho, Ht. rewrite Ho, Ht, loop_end.
  cbn [outcome trace fst snd timeouts]. rewrite app_nil_r. split; reflexivity.
Qed.

End Loop.

(** The loop of [src/index.ts]: the first observation that is not pending
    decides the result, after one timer per pending observation; with only
    pending observations the loop times out. *)
Lemma poll_outcomes (jobs : nat -> Outcome Response) (jobId : string)
    (maxAttempts : nat) (initialDelay : float) :
  (forall k, k < maxAttempts ->
     (forall i, i < k -> observe (jobs i) = Pending) ->
     observe (jobs k) <> Pending ->
     outcome (pollJobStatus jobs jobId maxAttempts initialDelay) =
       match observe (jobs k) with
       | Completed job => Returns job
       | Failed job =>
           Throws (JobFailed (ToString (js_or (opt_get job "error") (JStr "Unknown error"))))
       | Broken e => Throws e
       | Pending => Throws (JobTimeout maxAttempts)
       end /\
     timeouts (trace (pollJobStatus jobs jobId maxAttempts initialDelay)) =
       map (fun i => delay_after i initialDelay) (seq 0 k)) /\
  ((forall i, i < maxAttempts -> observe (jobs i) = Pending) ->
   outcome (pollJobStatus jobs jobId maxAttempts initialDelay)
     = Throws (JobTimeout maxAttempts) /\
   timeouts (trace (pollJobStatus jobs jobId maxAttempts initialDelay)) =
     map (fun i => delay_after i initialDelay) (seq 0 maxAttempts)).
Proof.
  unfold pollJobStatus. split.
  - intros k.
    apply (@loop_decides (poll_loop jobs jobId maxAttempts)
             (fun i => observe (jobs i)) jobId).
    intros. apply poll_loop_pass.
  - apply (@loop_times_out (poll_loop jobs jobId maxAttempts)
             (fun i => observe (jobs i)) jobId (JobTimeout maxAttempts)).
    + reflexivity.
    + intros. apply poll_loop_pass.
Qed.

(** The loop of the axios entry point: as above, and a rejection with status
    404 is reported as the missing job. *)
Lemma axios_poll_outcomes (api : nat -> AxiosResult) (jobId : string)
    (maxAttempts : nat) (initialDelay : float) :
  (forall k, k < maxAttempts ->
     (forall i, i < k -> axios_observe jobId (api i) = Pending) ->
     axios_observe jobId (api k) <> Pending ->
     outcome (axios_pollJobStatus api jobId maxAttempts initialDelay) =
       match axios_observe jobId (api k) with
       | Completed job => Returns job
       | Failed job =>
           Throws (JobFailed (ToString (js_or (opt_get job "error") (JStr "Unknown error"))))
       | Broken e => Throws e
       | Pending => Throws (JobTimeout maxAttempts)
       end /\
     timeouts (trace (axios_pollJobStatus api jobId maxAttempts initialDelay)) =
       map (fun i => delay_after i initialDelay) (seq 0 k)) /\
  (forall k e, k < maxAttempts ->
     (forall i, i < k -> axios_observe jobId (api i) = Pending) ->
     api k = Rejected e (Some 404%float) ->
     outcome (axios_pollJobStatus api jobId maxAttempts initialDelay)
       = Throws (JobNotFound jobId)) /\
  ((forall i, i < maxAttempts -> axios_observe jobId (api i) = Pending) ->
   outcome (axios_pollJobStatus api jobId maxAttempts initialDelay)
     = Throws (JobTimeout maxAttempts) /\
   timeouts (trace (axios_pollJobStatus api jobId maxAttempts initialDelay)) =
     map (fun i => delay_after i initialDelay) (seq 0 maxAttempts)).
Proof.
  assert (decides : forall k, k < maxAttempts ->
     (forall i, i < k -> axios_observe jobId (api i) = Pending) ->
     axios_observe jobId (api k) <> Pending ->
     outcome (axios_pollJobStatus api jobId maxAttempts initialDelay) =
       match axios_observe jobId (api k) with
       | Completed job => Returns job
       | Failed job =>
           Throws (JobFailed (ToString (js_or (opt_get job "error") (JStr "Unknown error"))))
       | Broken e => Throws e
       | Pending => Throws (JobTimeout maxAttempts)
       end /\
     timeouts (trace (axios_pollJobStatus api jobId maxAttempts initialDelay)) =
       map (fun i => delay_after i initialDelay) (seq 0 k)).
  { intros k. unfold axios_pollJobStatus.
    apply (@loop_decides (axios_poll_loop api jobId maxAttempts)
             (fun i => axios_observe jobId (api i)) jobId).
    intros. apply axios_poll_loop_pass. }
  split; [exact decides|]. split.
  - intros k e Hk Hp Hrej.
    destruct (decides k Hk Hp) as [Ho _].
    + rewrite Hrej. discriminate.
    + rewrite Ho, Hrej. reflexivity.
  - unfold axios_pollJobStatus.
    apply (@loop_times_out (axios_poll_loop api jobId maxAttempts)
             (fun i => axios_observe jobId (api i)) jobId (JobTimeout maxAttempts)).
    + reflexivity.
    + intros. apply axios_poll_loop_pass.
Qed.

(** C9.  In [src/index.ts] the answer for a job the service does not know,
    a 404 whose body has no [status], counts as pending: every attempt is
    used, with a timer after each, and the loop ends with the time-out
    error and not with a job-not-found error.  The loop of the axios entry
    point ends with the job-not-found error on the first such answer. *)
Theorem missing_job_times_out (jobId : string) (maxAttempts : nat)
    (initialDelay : float) :
  outcome (pollJobStatus (fun _ => Returns Demo.missing_job) jobId
             maxAttempts initialDelay)
    = Throws (JobTimeout maxAttempts) /\
  timeouts (trace (pollJobStatus (fun _ => Returns Demo.missing_job) jobId
                     maxAttempts initialDelay))
    = map (fun i => delay_after i initialDelay) (seq 0 maxAttempts) /\
  JobTimeout maxAttempts <> JobNotFound jobId /\
  (forall e,
     outcome (axios_pollJobStatus (fun _ => Rejected e (Some 404%float)) jobId
                (S maxAttempts) initialDelay)
       = Throws (JobNotFound jobId)).
Proof.
  destruct (poll_outcomes (fun _ => Returns Demo.missing_job) jobId
              maxAttempts initialDelay) as [_ Hto].
  destruct Hto as [Ho Ht]; [reflexivity|].
  split; [exact Ho|]. split; [exact Ht|]. split; [discriminate|].
  intros e. reflexivity.
Qed.

(** ** Further properties of [handlePayment] *)

(** A branch in which the calls made so far are the first of the four. *)
Ltac prefix_found :=
  cbn [trace outcome fst snd];
  unshelve (do 4 eexists; reflexivity);
  first [exact EmptyString | exact JNull].

(** X1.  The calls of a run are, in this order and each at most once, the
    discovery call, the blockhash call, the instruction request and the
    settlement request, all for the tenant of the challenge: the trace of
    every run is an initial part of that sequence. *)
Theorem calls_in_order (net : Services) (req : PaymentRequirements) :
  exists baseTx signedTx signerAddress rest,
    (trace (handlePayment UNREEL_API_URL wallet net req) ++ rest)%list =
    [FetchSupported (tenantId_of req);
     GetLatestBlockhash;
     FetchPaymentInstruction (tenantId_of req)
       (paymentInstructionBody wallet baseTx req);
     FetchSettle (tenantId_of req)
       (settleBody UNREEL_API_URL signedTx req signerAddress)].
Proof.
  unfold handlePayment. cbv zeta.
  repeat run_step prefix_found.
  cbn [trace fst]. do 3 eexists. exists []. reflexivity.
Qed.

(** X2.  When the discovery response advertises no fee payer (no [kinds],
    an empty list, no [extra], or an empty [feePayer]), the run throws
    "Failed to get fee payer from x402 service" after the discovery call
    alone: the ledger and the relay's other endpoints are not contacted. *)
Theorem no_sponsor_no_payment (net : Services) (req : PaymentRequirements)
    (info kinds : JsVal) :
  returned (PublicKey (JStr req.(payTo))) = true ->
  returned (PublicKey (JStr req.(asset))) = true ->
  net.(supportedRes) = Returns info ->
  get info "kinds" = Returns kinds ->
  truthy (opt_get (opt_get (opt_get0 kinds) "extra") "feePayer") = false ->
  handlePayment UNREEL_API_URL wallet net req =
  ([FetchSupported (tenantId_of req)],
   Throws (Error "Failed to get fee payer from x402 service")).
Proof.
  intros Hp Ha Hres Hk Hf. unfold handlePayment. cbv zeta.
  destruct (PublicKey (JStr (payTo req))); [|discriminate].
  destruct (PublicKey (JStr (asset req))); [|discriminate].
  rewrite !bind_lift_returns, Hres, bind_await_returns.
  unfold feePayerAddress_of. rewrite Hk. cbn [bindO]. rewrite Hf. cbn [negb].
  rewrite bind_lift_throws. reflexivity.
Qed.

(** X3.  A network call that rejects ends the run with that rejection: the
    call is not repeated, no later call is made, and the exception reaches
    the caller unchanged. *)
Theorem rejected_call_ends_run (net : Services) (req : PaymentRequirements)
    (e : Exn) :
  (forall t,
     In (FetchSupported t) (trace (handlePayment UNREEL_API_URL wallet net req)) ->
     net.(supportedRes) = Throws e ->
     handlePayment UNREEL_API_URL wallet net req
       = ([FetchSupported (tenantId_of req)], Throws e)) /\
  (In GetLatestBlockhash (trace (handlePayment UNREEL_API_URL wallet net req)) ->
   net.(latestBlockhash) = Throws e ->
   handlePayment UNREEL_API_URL wallet net req
     = ([FetchSupported (tenantId_of req); GetLatestBlockhash], Throws e)) /\
  (forall t b,
     In (FetchPaymentInstruction t b)
        (trace (handlePayment UNREEL_API_URL wallet net req)) ->
     net.(paymentInstructionRes) = Throws e ->
     outcome (handlePayment UNREEL_API_URL wallet net req) = Throws e /\
     existsb is_settle (trace (handlePayment UNREEL_API_URL wallet net req)) = false) /\
  (forall t b,
     In (FetchSettle t b) (trace (handlePayment UNREEL_API_URL wallet net req)) ->
     net.(settleRes) = Throws e ->
     outcome (handlePayment UNREEL_API_URL wallet net req) = Throws e).
Proof.
  split; [|split; [|split]].
  - intros t Hin Hres. revert Hin. unfold handlePayment. cbv zeta. rewrite Hres.
    repeat run_step stopped_before. reflexivity.
  - intros Hin Hres. revert Hin. unfold handlePayment. cbv zeta. rewrite Hres.
    repeat run_step stopped_before. reflexivity.
  - intros t b Hin Hres. revert Hin. unfold handlePayment. cbv zeta. rewrite Hres.
    repeat run_step stopped_before. intros _. split; reflexivity.
  - intros t b Hin Hres.
    destruct (settle_reached _ _ _ _ Hin) as (n & _ & _ & _ & Hrun).
    rewrite Hrun, Hres. reflexivity.
Qed.

(** ** The relay instruction *)

Lemma mapO_Forall2 {A B} (f : A -> Outcome B) (l : list A) :
  forall ys, mapO f l = Returns ys -> Forall2 (fun x y => f x = Returns y) l ys.
Proof.
  induction l as [|x l IH]; simpl; intros ys H.
  - injection H as <-. constructor.
  - destruct (f x) as [y|e] eqn:Hx; simpl in H; [|discriminate].
    destruct (mapO f l) as [ys'|e]; simpl in H; [|discriminate].
    injection H as <-. constructor; [exact Hx | apply IH; reflexivity].
Qed.


(** X4.  When the relay instruction is built, its account entries are those
    of the relay's account references, one for each and in the relay's
    order; its data is the normalised payload and its program the key of
    [programAddress]. *)
Theorem koraInstruction_follows_accounts (pinstr : JsVal)
    (kora : TransactionInstruction) :
  koraInstruction_of pinstr = Returns kora ->
  exists accounts,
    opt_get pinstr "accounts" = JArr accounts /\
    Forall2 (fun account key => koraKey account = Returns key) accounts kora.(keys) /\
    List.length kora.(keys) = List.length accounts /\
    dataBuffer (opt_get pinstr "data") = Returns kora.(data) /\
    PublicKey (opt_get pinstr "programAddress") = Returns kora.(programId).
Proof.
  unfold koraInstruction_of.
  destruct (get pinstr "data") as [payload|e] eqn:Hd; simpl; [|discriminate].
  pose proof (get_returns_again _ _ "accounts" Hd) as Ha.
  pose proof (get_returns_again _ _ "programAddress" Hd) as Hp.
  apply get_opt_get in Hd. subst payload.
  destruct (dataBuffer (opt_get pinstr "data")) as [buffer|e]; simpl; [|discriminate].
  rewrite Ha. simpl.
  destruct (opt_get pinstr "accounts") as [| | | | |accounts|] eqn:Hacc;
    simpl; try discriminate.
  destruct (mapO koraKey accounts) as [ks|e] eqn:Hks; simpl; [|discriminate].
  rewrite Hp. simpl.
  destruct (PublicKey (opt_get pinstr "programAddress")) as [pk|e]; simpl; [|discriminate].
  intros [= <-]. exists accounts. cbn.
  pose proof (mapO_Forall2 _ _ Hks) as HF.
  repeat split; try assumption; try reflexivity.
  symmetry. exact (Forall2_length HF).
Qed.


Lemma no_settle_event (t : list Event) :
  (forall tenantId body, ~ In (FetchSettle tenantId body) t) ->
  existsb is_settle t = false.
Proof.
  induction t as [|ev t IH]; intros H; [reflexivity|].
  simpl. destruct ev; simpl; try (apply IH; intros ? ? ?; eapply H; right; eassumption).
  exfalso. eapply H. left. reflexivity.
Qed.

(** X6.  When the relay instruction cannot be built from the relay's answer
    (accounts that are no array, an address or program address that is no
    key, a payload that cannot be normalised), the run throws and nothing is
    sent for settlement. *)
Theorem unusable_instruction_never_settles (net : Services)
    (req : PaymentRequirements) (pid pinstr signerAddr : JsVal) (e : Exn) :
  net.(paymentInstructionRes) = Returns pid ->
  paymentInstruction_of pid = Returns (pinstr, signerAddr) ->
  koraInstruction_of pinstr = Throws e ->
  returned (outcome (handlePayment UNREEL_API_URL wallet net req)) = false /\
  existsb is_settle (trace (handlePayment UNREEL_API_URL wallet net req)) = false.
Proof.
  intros Hres Hpi Hk.
  assert (Hno : forall tenantId body,
            ~ In (FetchSettle tenantId body)
                 (trace (handlePayment UNREEL_API_URL wallet net req))).
  { intros tenantId body Hin.
    destruct (settle_reached _ _ _ _ Hin) as (n & Hn & _).
    destruct Hn as (_ & _ & _ & _ & _ & _ & _ & _ & _ & _ & Hres' & Hpi' & _ & Hk' & _).
    rewrite Hres in Hres'. injection Hres' as Hsame.
    rewrite <- Hsame, Hpi in Hpi'. injection Hpi' as Hsame' _.
    rewrite <- Hsame', Hk in Hk'. discriminate. }
  split; [|apply no_settle_event, Hno].
  destruct (outcome (handlePayment UNREEL_API_URL wallet net req)) as [tx|e'] eqn:Ho;
    [|reflexivity].
  destruct (returns_settles _ _ Ho) as (body & Hin).
  exfalso. exact (Hno _ _ Hin).
Qed.


(** ** Calls of the polling loops *)

Section LoopCalls.

Variable loop : nat -> nat -> float -> M JsVal.
Variable seen : nat -> Observation.
Variable jobId : string.
Variable timed_out : Exn.

Hypothesis loop_end : forall attempt delay, loop 0 attempt delay = ([], Throws timed_out).

Hypothesis loop_pass : forall remaining attempt delay,
  loop (S remaining) attempt delay =
  match seen attempt with
  | Completed job => ([FetchJob jobId], Returns job)
  | Failed job =>
      ([FetchJob jobId],
       Throws (JobFailed (ToString (js_or (opt_get job "error") (JStr "Unknown error")))))
  | Broken e => ([FetchJob jobId], Throws e)
  | Pending =>
      let rest := loop remaining (S attempt) (next_delay delay) in
      (FetchJob jobId :: SetTimeout delay :: trace rest, outcome rest)
  end.

Lemma loop_calls_bounded (remaining : nat) :
  forall attempt delay,
    count_fetches (trace (loop remaining attempt delay)) <= remaining /\
    List.length (timeouts (trace (loop remaining attempt delay)))
      <= count_fetches (trace (loop remaining attempt delay)) /\
    Forall (fun ev => ev = FetchJob jobId \/ exists d, ev = SetTimeout d)
           (trace (loop remaining attempt delay)).
Proof.
  induction remaining as [|remaining IH]; intros attempt delay.
  - rewrite loop_end. cbn. repeat split; [lia | lia | constructor].
  - rewrite loop_pass.
    destruct (seen attempt); cbn;
      try (repeat split; [lia | lia | repeat constructor]).
    destruct (IH (S attempt) (next_delay delay)) as (Hf & Ht & Hall).
    unfold count_fetches in *.
    repeat split; [lia | lia |].
    constructor; [left; reflexivity|]. constructor; [right; eexists; reflexivity|].
    exact Hall.
Qed.

Lemma loop_calls_skip (k : nat) :
  forall remaining attempt delay,
    (forall i, i < k -> seen (attempt + i) = Pending) ->
    count_fetches (trace (loop (k + remaining) attempt delay)) =
    k + count_fetches (trace (loop remaining (attempt + k) (delay_after k delay))).
Proof.
  induction k as [|k IH]; intros remaining attempt delay Hp.
  - rewrite Nat.add_0_r. reflexivity.
  - assert (Hnow : seen attempt = Pending).
    { rewrite <- (Nat.add_0_r attempt). apply Hp. lia. }
    cbn [Nat.add]. rewrite loop_pass, Hnow, Nat.add_succ_r.
    cbv zeta. cbn [trace fst delay_after].
    rewrite <- delay_after_next.
    unfold count_fetches in *. cbn [filter is_fetch_job List.length].
    rewrite (IH remaining (S attempt) (next_delay delay)).
    + reflexivity.
    + intros i Hi. cbn [Nat.add]. rewrite <- Nat.add_succ_r. apply Hp. lia.
Qed.

Lemma loop_calls_decided (maxAttempts k : nat) (initialDelay : float) :
  k < maxAttempts ->
  (forall i, i < k -> seen i = Pending) ->
  seen k <> Pending ->
  count_fetches (trace (loop maxAttempts 0 initialDelay)) = S k.
Proof.
  intros Hk Hp Hd.
  replace maxAttempts with (k + S (maxAttempts - S k)) by lia.
  rewrite (@loop_calls_skip k (S (maxAttempts - S k)) 0 initialDelay Hp).
  rewrite loop_pass. cbn [Nat.add].
  destruct (seen k); try contradiction; cbn; lia.
Qed.

Lemma loop_calls_timed_out (maxAttempts : nat) (initialDelay : float) :
  (forall i, i < maxAttempts -> seen i = Pending) ->
  count_fetches (trace (loop maxAttempts 0 initialDelay)) = maxAttempts.
Proof.
  intros Hp.
  pose proof (@loop_calls_skip maxAttempts 0 0 initialDelay Hp) as H.
  rewrite Nat.add_0_r in H. rewrite H, loop_end. cbn. lia.
Qed.

End LoopCalls.

(** X8.  The loop of [src/index.ts] stops at the first answer that is not
    pending, after one status request per answer seen and one timer per
    pending answer: a completed job is returned, a failed one throws "Job
    failed" with the job's error text ("Unknown error" without one), and an
    exception of the request or of the parsing is thrown on as it is. *)
Theorem poll_stops_at_first_result (jobs : nat -> Outcome Response)
    (jobId : string) (maxAttempts k : nat) (initialDelay : float) :
  k < maxAttempts ->
  (forall i, i < k -> observe (jobs i) = Pending) ->
  observe (jobs k) <> Pending ->
  (forall job, observe (jobs k) = Completed job ->
     outcome (pollJobStatus jobs jobId maxAttempts initialDelay) = Returns job) /\
  (forall job, observe (jobs k) = Failed job ->
     outcome (pollJobStatus jobs jobId maxAttempts initialDelay)
       = Throws (JobFailed (ToString (js_or (opt_get job "error")
                                            (JStr "Unknown error"))))) /\
  (forall e, observe (jobs k) = Broken e ->
     outcome (pollJobStatus jobs jobId maxAttempts initialDelay) = Throws e) /\
  count_fetches (trace (pollJobStatus jobs jobId maxAttempts initialDelay)) = S k /\
  timeouts (trace (pollJobStatus jobs jobId maxAttempts initialDelay))
    = map (fun i => delay_after i initialDelay) (seq 0 k).
Proof.
  intros Hk Hp Hd.
  destruct (proj1 (poll_outcomes jobs jobId maxAttempts initialDelay) k Hk Hp Hd)
    as [Ho Ht].
  assert (Hc : count_fetches (trace (pollJobStatus jobs jobId maxAttempts initialDelay))
               = S k).
  { unfold pollJobStatus.
    apply (@loop_calls_decided (poll_loop jobs jobId maxAttempts)
             (fun i => observe (jobs i)) jobId); try assumption.
    intros. apply poll_loop_pass. }
  repeat split; try assumption; intros x Hx; rewrite Ho, Hx; reflexivity.
Qed.

(** X9.  When every answer is pending, the loop of [src/index.ts] makes
    exactly [maxAttempts] status requests, sets a timer after each of them,
    the last one included, and then throws "Job timed out after
    [maxAttempts] attempts"; with [maxAttempts] zero it throws at once. *)
Theorem poll_gives_up (jobs : nat -> Outcome Response) (jobId : string)
    (maxAttempts : nat) (initialDelay : float) :
  (forall i, i < maxAttempts -> observe (jobs i) = Pending) ->
  outcome (pollJobStatus jobs jobId maxAttempts initialDelay)
    = Throws (JobTimeout maxAttempts) /\
  count_fetches (trace (pollJobStatus jobs jobId maxAttempts initialDelay))
    = maxAttempts /\
  timeouts (trace (pollJobStatus jobs jobId maxAttempts initialDelay))
    = map (fun i => delay_after i initialDelay) (seq 0 maxAttempts).
Proof.
  intros Hp.
  destruct (proj2 (poll_outcomes jobs jobId maxAttempts initialDelay) Hp) as [Ho Ht].
  repeat split; try assumption.
  unfold pollJobStatus.
  apply (@loop_calls_timed_out (poll_loop jobs jobId maxAttempts)
           (fun i => observe (jobs i)) jobId (JobTimeout maxAttempts));
    try assumption; [reflexivity | intros; apply poll_loop_pass].
Qed.

(** X10.  Whatever the service answers, both polling loops make at most
    [maxAttempts] status requests, never more timers than requests, and no
    other call. *)
Theorem polling_is_bounded (jobId : string) (maxAttempts : nat)
    (initialDelay : float) :
  (forall jobs,
     count_fetches (trace (pollJobStatus jobs jobId maxAttempts initialDelay))
       <= maxAttempts /\
     List.length (timeouts (trace (pollJobStatus jobs jobId maxAttempts initialDelay)))
       <= count_fetches (trace (pollJobStatus jobs jobId maxAttempts initialDelay)) /\
     Forall (fun ev => ev = FetchJob jobId \/ exists d, ev = SetTimeout d)
            (trace (pollJobStatus jobs jobId maxAttempts initialDelay))) /\
  (forall api,
     count_fetches (trace (axios_pollJobStatus api jobId maxAttempts initialDelay))
       <= maxAttempts /\
     List.length (timeouts (trace (axios_pollJobStatus api jobId maxAttempts initialDelay)))
       <= count_fetches (trace (axios_pollJobStatus api jobId maxAttempts initialDelay)) /\
     Forall (fun ev => ev = FetchJob jobId \/ exists d, ev = SetTimeout d)
            (trace (axios_pollJobStatus api jobId maxAttempts initialDelay))).
Proof.
  split.
  - intros jobs. unfold pollJobStatus.
    apply (@loop_calls_bounded (poll_loop jobs jobId maxAttempts)
             (fun i => observe (jobs i)) jobId (JobTimeout maxAttempts)).
    + reflexivity.
    + intros. apply poll_loop_pass.
  - intros api. unfold axios_pollJobStatus.
    apply (@loop_calls_bounded (axios_poll_loop api jobId maxAttempts)
             (fun i => axios_observe jobId (api i)) jobId (JobTimeout maxAttempts)).
    + reflexivity.
    + intros. apply axios_poll_loop_pass.
Qed.

(** X11.  In the loop of the axios entry point, a request rejected with
    status 404 throws "Job not found: [jobId]" at once; a request rejected
    with another status, or without a response, throws the rejection on as
    it is; in both cases no further request and no timer follow. *)
Theorem axios_poll_rejections (api : nat -> AxiosResult) (jobId : string)
    (maxAttempts k : nat) (initialDelay : float) (e : Exn)
    (response_status : option float) :
  k < maxAttempts ->
  (forall i, i < k -> axios_observe jobId (api i) = Pending) ->
  api k = Rejected e response_status ->
  outcome (axios_pollJobStatus api jobId maxAttempts initialDelay)
    = Throws (if is_404 response_status then JobNotFound jobId else e) /\
  count_fetches (trace (axios_pollJobStatus api jobId maxAttempts initialDelay)) = S k /\
  timeouts (trace (axios_pollJobStatus api jobId maxAttempts initialDelay))
    = map (fun i => delay_after i initialDelay) (seq 0 k).
Proof.
  intros Hk Hp Hrej.
  assert (Hd : axios_observe jobId (api k) <> Pending) by (rewrite Hrej; discriminate).
  destruct (proj1 (axios_poll_outcomes api jobId maxAttempts initialDelay) k Hk Hp Hd)
    as [Ho Ht].
  rewrite Ho, Hrej. repeat split; try assumption.
  unfold axios_pollJobStatus.
  apply (@loop_calls_decided (axios_poll_loop api jobId maxAttempts)
           (fun i => axios_observe jobId (api i)) jobId); try assumption.
  intros. apply axios_poll_loop_pass.
Qed.

(** X12.  The loop of the axios entry point stops at the first response
    whose status is final: a completed job's data is returned, a failed one
    throws "Job failed" with its error text; with only pending responses it
    makes [maxAttempts] requests and throws the time-out error. *)
Theorem axios_poll_results (api : nat -> AxiosResult) (jobId : string)
    (maxAttempts : nat) (initialDelay : float) :
  (forall k data_,
     k < maxAttempts ->
     (forall i, i < k -> axios_observe jobId (api i) = Pending) ->
     api k = Resolved data_ ->
     (strict_eq_str (opt_get data_ "status") "completed" = true ->
      outcome (axios_pollJobStatus api jobId maxAttempts initialDelay) = Returns data_) /\
     (strict_eq_str (opt_get data_ "status") "failed" = true ->
      outcome (axios_pollJobStatus api jobId maxAttempts initialDelay)
        = Throws (JobFailed (ToString (js_or (opt_get data_ "error")
                                             (JStr "Unknown error")))))) /\
  ((forall i, i < maxAttempts -> axios_observe jobId (api i) = Pending) ->
   outcome (axios_pollJobStatus api jobId maxAttempts initialDelay)
     = Throws (JobTimeout maxAttempts) /\
   count_fetches (trace (axios_pollJobStatus api jobId maxAttempts initialDelay))
     = maxAttempts).
Proof.
  split.
  - intros k data_ Hk Hp Hres.
    assert (Hobs : forall st, strict_eq_str (opt_get data_ "status") st = true ->
               get data_ "status" = Returns (opt_get data_ "status")).
    { intros st Hst. destruct data_; simpl in *; try discriminate; reflexivity. }
    split; intros Hst.
    + assert (Hseen : axios_observe jobId (api k) = Completed data_).
      { rewrite Hres. unfold axios_observe, observe_job.
        rewrite (Hobs _ Hst), Hst. reflexivity. }
      destruct (proj1 (axios_poll_outcomes api jobId maxAttempts initialDelay) k Hk Hp)
        as [Ho _]; [rewrite Hseen; discriminate|].
      rewrite Ho, Hseen. reflexivity.
    + assert (Hseen : axios_observe jobId (api k) = Failed data_).
      { rewrite Hres. unfold axios_observe, observe_job.
        rewrite (Hobs _ Hst).
        destruct (strict_eq_str (opt_get data_ "status") "completed") eqn:Hc.
        - destruct (opt_get data_ "status"); simpl in *; try discriminate.
          apply String.eqb_eq in Hc, Hst. congruence.
        - rewrite Hst. reflexivity. }
      destruct (proj1 (axios_poll_outcomes api jobId maxAttempts initialDelay) k Hk Hp)
        as [Ho _]; [rewrite Hseen; discriminate|].
      rewrite Ho, Hseen. reflexivity.
  - intros Hp.
    destruct (proj2 (proj2 (axios_poll_outcomes api jobId maxAttempts initialDelay)) Hp)
      as [Ho _].
    split; [exact Ho|].
    unfold axios_pollJobStatus.
    apply (@loop_calls_timed_out (axios_poll_loop api jobId maxAttempts)
             (fun i => axios_observe jobId (api i)) jobId (JobTimeout maxAttempts));
      try assumption; [reflexivity | intros; apply axios_poll_loop_pass].
Qed.

(** ** The outer request and replay *)

Lemma bindR_lift_returns {E A B} (a : A) (k : A -> Run E B) :
  bindR (liftR (Returns a)) k = k a.
Proof. unfold bindR, liftR. destruct (k a); reflexivity. Qed.

Lemma bindR_lift_throws {E A B} (e : Exn) (k : A -> Run E B) :
  bindR (liftR (Throws e)) k = ([], Throws e).
Proof. reflexivity. Qed.

Lemma bindR_await_returns {E A B} (ev : E) (a : A) (k : A -> Run E B) :
  bindR (awaitR ev (Returns a)) k = (ev :: fst (k a), snd (k a)).
Proof. unfold bindR, awaitR. destruct (k a); reflexivity. Qed.

Lemma bindR_await_throws {E A B} (ev : E) (e : Exn) (k : A -> Run E B) :
  bindR (awaitR ev (Throws e)) k = ([ev], Throws e).
Proof. reflexivity. Qed.

Lemma bindR_within_returns {E E' A B} (f : E -> E') (m : Run E A) (a : A)
    (k : A -> Run E' B) :
  snd m = Returns a ->
  bindR (within f m) k = ((map f (fst m) ++ fst (k a))%list, snd (k a)).
Proof.
  destruct m as [t o]. simpl. intros ->. unfold bindR, within. simpl.
  destruct (k a); reflexivity.
Qed.

Lemma bindR_within_throws {E E' A B} (f : E -> E') (m : Run E A) (e : Exn)
    (k : A -> Run E' B) :
  snd m = Throws e ->
  bindR (within f m) k = (map f (fst m), Throws e).
Proof. destruct m as [t o]. simpl. intros ->. reflexivity. Qed.

Lemma no_paid_post_in_sub (t : list Event) :
  existsb is_paid_post (map Sub t) = false /\ count_posts (map Sub t) = 0.
Proof.
  unfold count_posts. induction t as [|ev t [IH1 IH2]]; [split; reflexivity|].
  simpl. split; assumption.
Qed.

(** X13.  When the first response is not a 402, no payment is negotiated:
    the request is made once, without a payment header and without any call
    to the relay or the ledger; a response with a status from 200 to 299
    gives its parsed body, any other throws "API error" with the status and
    the response text. *)
Theorem unpaid_response_bypasses_payment (api : Api) (net : Services)
    (endpoint : string) (body : JsVal) (res : ApiResponse) :
  api.(initialRes) = Returns res ->
  res.(http_status) <> 402%Z ->
  fst (makePaidRequest UNREEL_API_URL wallet api net endpoint body)
    = [PostApi endpoint body None] /\
  (ok res = true ->
   snd (makePaidRequest UNREEL_API_URL wallet api net endpoint body) = res.(parsed)) /\
  (forall error, ok res = false -> res.(text) = Returns error ->
   snd (makePaidRequest UNREEL_API_URL wallet api net endpoint body)
     = Throws (Error ("API error (" ++ Z_to_string res.(http_status) ++ "): " ++ error))).
Proof.
  intros Hres Hs. unfold makePaidRequest.
  rewrite Hres, bindR_await_returns.
  destruct (Z.eqb_spec (http_status res) 402) as [Heq|_]; [contradiction|].
  cbn [negb]. destruct (ok res); cbn [negb].
  - split; [reflexivity|]. split; [reflexivity | discriminate].
  - destruct (text res) as [error|e].
    + rewrite bindR_lift_returns. split; [reflexivity|].
      split; [discriminate|]. intros error' _ [= <-]. reflexivity.
    + rewrite bindR_lift_throws. split; [reflexivity|].
      split; [discriminate|]. intros error' _ [=].
Qed.

(** X14.  On a 402 whose first offer is [requirements], when the payment
    returns the transaction [tx], the calls are the first request, those of
    the payment, and the replay of the same endpoint and body with a payment
    header that names the challenge's own network and [tx]; offers after the
    first play no part.  The replay's response decides the result: its
    parsed body, or "Paid request failed" with its status and text. *)
Theorem payment_then_replay (api : Api) (net : Services) (endpoint : string)
    (body : JsVal) (res : ApiResponse) (requirements : PaymentRequirements)
    (others : list PaymentRequirements) (tx : JsVal) :
  api.(initialRes) = Returns res ->
  res.(http_status) = 402%Z ->
  res.(accepts) = Returns (requirements :: others) ->
  outcome (handlePayment UNREEL_API_URL wallet net requirements) = Returns tx ->
  fst (makePaidRequest UNREEL_API_URL wallet api net endpoint body)
    = (PostApi endpoint body None
       :: map Sub (trace (handlePayment UNREEL_API_URL wallet net requirements))
       ++ [PostApi endpoint body (Some (paymentPayload requirements tx))])%list /\
  opt_get (paymentPayload requirements tx) "network" = JStr requirements.(network) /\
  opt_get (opt_get (paymentPayload requirements tx) "payload") "transaction" = tx /\
  (forall paid, api.(paidRes) = Returns paid -> ok paid = true ->
     snd (makePaidRequest UNREEL_API_URL wallet api net endpoint body) = paid.(parsed)) /\
  (forall paid error, api.(paidRes) = Returns paid -> ok paid = false ->
     paid.(text) = Returns error ->
     snd (makePaidRequest UNREEL_API_URL wallet api net endpoint body)
       = Throws (Error ("Paid request failed (" ++ Z_to_string paid.(http_status)
                        ++ "): " ++ error))).
Proof.
  intros Hres Hs Hacc Hpay. unfold makePaidRequest.
  rewrite Hres, bindR_await_returns, Hs. cbn [Z.eqb Pos.eqb negb].
  rewrite Hacc, bindR_lift_returns.
  rewrite (bindR_within_returns Sub _ _ Hpay). cbn [fst snd].
  destruct (paidRes api) as [paid|e].
  - rewrite bindR_await_returns.
    destruct (ok paid) eqn:Hok; cbn [negb].
    + repeat split; try reflexivity.
      * intros paid' [= <-] _. reflexivity.
      * intros paid' error [= <-] H. congruence.
    + destruct (text paid) as [error|e] eqn:Htext.
      * rewrite bindR_lift_returns. repeat split; try reflexivity.
        -- intros paid' [= <-] H. congruence.
        -- intros paid' error' [= <-] _ H. rewrite Htext in H.
           injection H as <-. reflexivity.
      * rewrite bindR_lift_throws. repeat split; try reflexivity.
        -- intros paid' [= <-] H. congruence.
        -- intros paid' error' [= <-] _ H. congruence.
  - rewrite bindR_await_throws. repeat split; try reflexivity.
    + intros paid' [=].
    + intros paid' error' [=].
Qed.

(** X15.  On a 402, when the payment throws, or when the response offers
    nothing, the request is not replayed: the exception of the payment (a
    [TypeError] for the missing offer) reaches the caller, and no request
    with a payment header is made. *)
Theorem failed_payment_is_not_replayed (api : Api) (net : Services)
    (endpoint : string) (body : JsVal) (res : ApiResponse) :
  api.(initialRes) = Returns res ->
  res.(http_status) = 402%Z ->
  (forall requirements others e,
     res.(accepts) = Returns (requirements :: others) ->
     outcome (handlePayment UNREEL_API_URL wallet net requirements) = Throws e ->
     makePaidRequest UNREEL_API_URL wallet api net endpoint body
       = (PostApi endpoint body None
          :: map Sub (trace (handlePayment UNREEL_API_URL wallet net requirements)),
          Throws e) /\
     existsb is_paid_post
       (fst (makePaidRequest UNREEL_API_URL wallet api net endpoint body)) = false) /\
  (res.(accepts) = Returns [] ->
   makePaidRequest UNREEL_API_URL wallet api net endpoint body
     = ([PostApi endpoint body None],
        Throws (TypeError "Cannot read properties of undefined (reading 'maxAmountRequired')"))).
Proof.
  intros Hres Hs. unfold makePaidRequest.
  rewrite Hres, bindR_await_returns, Hs. cbn [Z.eqb Pos.eqb negb].
  split.
  - intros requirements others e Hacc Hpay.
    rewrite Hacc, bindR_lift_returns.
    rewrite (bindR_within_throws Sub _ _ Hpay). cbn [fst snd].
    split; [reflexivity|]. cbn [existsb is_paid_post orb].
    apply no_paid_post_in_sub.
  - intros Hacc. rewrite Hacc, bindR_lift_returns. reflexivity.
Qed.

(** X16.  A request with a payment header is made only after a settled
    payment: whenever one is made, the first response was a 402, the payment
    for its first offer has returned, which it does only on a settlement
    response with a truthy [success] flag, and the header carries the
    transaction that response named.  A run makes at most two requests to
    the paid API. *)
Theorem payment_header_means_settled (api : Api) (net : Services)
    (endpoint : string) (body : JsVal) :
  count_posts (fst (makePaidRequest UNREEL_API_URL wallet api net endpoint body)) <= 2 /\
  (forall endpoint' body' proof,
     In (PostApi endpoint' body' (Some proof))
        (fst (makePaidRequest UNREEL_API_URL wallet api net endpoint body)) ->
     exists res requirements others settleData,
       api.(initialRes) = Returns res /\
       res.(http_status) = 402%Z /\
       res.(accepts) = Returns (requirements :: others) /\
       net.(settleRes) = Returns settleData /\
       truthy (opt_get settleData "success") = true /\
       outcome (handlePayment UNREEL_API_URL wallet net requirements)
         = Returns (opt_get settleData "transaction") /\
       proof = paymentPayload requirements (opt_get settleData "transaction") /\
       endpoint' = endpoint /\ body' = body).
Proof.
  unfold makePaidRequest.
  destruct (initialRes api) as [res|e]; [|split; [cbn; lia | intros ? ? ? [[=]|[]]]].
  rewrite bindR_await_returns.
  destruct (Z.eqb_spec (http_status res) 402) as [Hs|Hs]; cbn [negb].
  2: { assert (Hone : forall m : Run Call JsVal, fst m = [] ->
                 count_posts (PostApi endpoint body None :: fst m) <= 2 /\
                 forall endpoint' body' proof,
                   In (PostApi endpoint' body' (Some proof))
                      (PostApi endpoint body None :: fst m) -> False).
       { intros m ->. split; [cbn; lia | intros ? ? ? [[=]|[]]]. }
       destruct (ok res); cbn [negb].
       - destruct (Hone (liftR (parsed res)) eq_refl) as [Hc Hn].
         split; [exact Hc | intros ? ? ? Hin; destruct (Hn _ _ _ Hin)].
       - destruct (text res) as [error|e];
           [rewrite bindR_lift_returns | rewrite bindR_lift_throws];
           (split; [cbn; lia | intros ? ? ? [[=]|[]]]). }
  destruct (accepts res) as [[|requirements others]|e] eqn:Hacc;
    [rewrite bindR_lift_returns | rewrite bindR_lift_returns | rewrite bindR_lift_throws];
    try (split; [cbn; lia | intros ? ? ? [[=]|[]]]).
  destruct (outcome (handlePayment UNREEL_API_URL wallet net requirements))
    as [tx|e] eqn:Hpay.
  - rewrite (bindR_within_returns Sub _ _ Hpay).
    assert (Hshape : forall m : Run Call JsVal,
              fst m = [PostApi endpoint body (Some (paymentPayload requirements tx))] ->
              count_posts (PostApi endpoint body None
                           :: map Sub (fst (handlePayment UNREEL_API_URL wallet net requirements))
                           ++ fst m) <= 2 /\
              forall endpoint' body' proof,
                In (PostApi endpoint' body' (Some proof))
                   (PostApi endpoint body None
                    :: map Sub (fst (handlePayment UNREEL_API_URL wallet net requirements))
                    ++ fst m) ->
                proof = paymentPayload requirements tx /\
                endpoint' = endpoint /\ body' = body).
    { intros m ->. split.
      - unfold count_posts. cbn [filter is_post List.length].
        rewrite filter_app, length_app.
        pose proof (proj2 (no_paid_post_in_sub
                    (fst (handlePayment UNREEL_API_URL wallet net requirements)))) as H0.
        unfold count_posts in H0. rewrite H0. cbn. lia.
      - intros endpoint' body' proof [[=]|Hin].
        apply in_app_or in Hin as [Hin|[[= <- <- <-]|[]]].
        + apply in_map_iff in Hin as (ev & [=] & _).
        + repeat split. }
    assert (Hsettled : exists settleData,
              net.(settleRes) = Returns settleData /\
              truthy (opt_get settleData "success") = true /\
              tx = opt_get settleData "transaction").
    { destruct (returns_settles _ _ Hpay) as (b & Hin).
      destruct (settle_reached _ _ _ _ Hin) as (n & _ & _ & _ & Hrun).
      rewrite Hrun in Hpay. cbn [outcome snd] in Hpay.
      destruct (settleRes net) as [settleData|e]; [|discriminate].
      simpl in Hpay. apply settled_returns in Hpay as (Ht & ->).
      exists settleData. repeat split; assumption. }
    destruct Hsettled as (settleData & Hsr & Hflag & ->).
    cbn [fst snd].
    assert (Hfin : forall m : Run Call JsVal,
              fst m = [PostApi endpoint body
                         (Some (paymentPayload requirements
                                  (opt_get settleData "transaction")))] ->
              count_posts (PostApi endpoint body None
                           :: map Sub (fst (handlePayment UNREEL_API_URL wallet net requirements))
                           ++ fst m) <= 2 /\
              forall endpoint' body' proof,
                In (PostApi endpoint' body' (Some proof))
                   (PostApi endpoint body None
                    :: map Sub (fst (handlePayment UNREEL_API_URL wallet net requirements))
                    ++ fst m) ->
                exists res0 requirements0 others0 settleData0,
                  Returns res = Returns res0 /\
                  http_status res0 = 402%Z /\
                  accepts res0 = Returns (requirements0 :: others0) /\
                  settleRes net = Returns settleData0 /\
                  truthy (opt_get settleData0 "success") = true /\
                  outcome (handlePayment UNREEL_API_URL wallet net requirements0)
                    = Returns (opt_get settleData0 "transaction") /\
                  proof = paymentPayload requirements0 (opt_get settleData0 "transaction") /\
                  endpoint' = endpoint /\ body' = body).
    { intros m Hm. destruct (Hshape m Hm) as [Hc Hin]. split; [exact Hc|].
      intros endpoint' body' proof H. destruct (Hin _ _ _ H) as (-> & -> & ->).
      exists res, requirements, others, settleData. repeat split; assumption. }
    destruct (paidRes api) as [paid|e].
    + rewrite bindR_await_returns.
      destruct (ok paid); cbn [negb].
      * apply (Hfin (_ :: nil, _)). reflexivity.
      * destruct (text paid) as [error|e];
          [rewrite bindR_lift_returns | rewrite bindR_lift_throws];
          apply (Hfin (_ :: nil, _)); reflexivity.
    + rewrite bindR_await_throws. apply (Hfin (_ :: nil, _)). reflexivity.
  - rewrite (bindR_within_throws Sub _ _ Hpay). cbn [fst snd].
    pose proof (no_paid_post_in_sub
                  (fst (handlePayment UNREEL_API_URL wallet net requirements)))
      as [_ H0].
    split.
    + unfold count_posts in *. cbn [filter is_post List.length]. rewrite H0. lia.
    + intros endpoint' body' proof [[=]|Hin].
      apply in_map_iff in Hin as (ev & [=] & _).
Qed.

(** ** The tool handlers *)

Lemma makePaidRequest_first_call (api : Api) (net : Services) (endpoint : string)
    (body : JsVal) :
  exists rest,
    fst (makePaidRequest UNREEL_API_URL wallet api net endpoint body)
      = PostApi endpoint body None :: rest.
Proof.
  unfold makePaidRequest. destruct (initialRes api) as [res|e].
  - rewrite bindR_await_returns. eexists. reflexivity.
  - rewrite bindR_await_throws. eexists. reflexivity.
Qed.

Lemma message_or_nonempty (e : Exn) (fallback : string) :
  fallback <> "" -> message_or e fallback <> "".
Proof.
  intros Hf. unfold message_or.
  destruct (String.eqb_spec (message e) ""); assumption.
Qed.

Lemma destructure_returns (v : JsVal) (source k : string) :
  v <> JUndefined -> v <> JNull -> destructure v source k = Returns (opt_get v k).
Proof. destruct v; intros; try contradiction; reflexivity. Qed.

(** A job that [pollJobStatus] returns was observed as completed. *)
Lemma poll_loop_returns (jobs : nat -> Outcome Response) (jobId : string)
    (maxAttempts : nat) (job : JsVal) (remaining : nat) :
  forall attempt delay,
    outcome (poll_loop jobs jobId maxAttempts remaining attempt delay) = Returns job ->
    exists k, observe (jobs k) = Completed job.
Proof.
  induction remaining as [|remaining IH]; intros attempt delay.
  - discriminate.
  - rewrite poll_loop_pass.
    destruct (observe (jobs attempt)) eqn:Hobs; cbv zeta; cbn [outcome snd];
      try discriminate.
    + intros [= <-]. exists attempt. exact Hobs.
    + apply IH.
Qed.

Lemma completed_has_properties (answer : Outcome Response) (job : JsVal) (k : string) :
  observe answer = Completed job -> get job k = Returns (opt_get job k).
Proof.
  unfold observe, observe_job.
  destruct answer as [res|e]; [|discriminate].
  destruct (json res) as [j|e]; [|discriminate].
  destruct (get j "status") as [st|e] eqn:Hst; [|discriminate].
  destruct (strict_eq_str st "completed").
  - intros [= <-]. exact (get_returns_again _ _ k Hst).
  - destruct (strict_eq_str st "failed"); discriminate.
Qed.

(** The handler of [generate-video], branch by branch. *)
Lemma generate_video_run (api : Api) (net : Services)
    (jobs : nat -> Outcome Response) (args : GenerateVideo) :
  generate_video UNREEL_API_URL wallet api net jobs args =
  let paid := makePaidRequest UNREEL_API_URL wallet api net "/api/generate-x402"
                (requestBody args) in
  let failure := fun e : Exn =>
    JObj [("success", JBool false);
          ("error", JStr (message_or e "Unknown error"))] in
  match snd paid with
  | Throws e => (fst paid, Returns (failure e))
  | Returns response =>
      match destructure response "response" "job_id" with
      | Throws e => (fst paid, Returns (failure e))
      | Returns job_id =>
          match args.(wait_for_completion) with
          | Some true =>
              let poll := pollJobStatus jobs (ToString job_id) 60 5000 in
              (fst paid ++ map Sub (trace poll),
               match outcome poll with
               | Throws e => Returns (failure e)
               | Returns result =>
                   match get result "video_url" with
                   | Throws e => Returns (failure e)
                   | Returns video_url =>
                       Returns (JObj [("success", JBool true);
                                      ("job_id", job_id);
                                      ("status", JStr "completed");
                                      ("video_url", video_url);
                                      ("message", JStr "Video generated successfully!")])
                   end
               end)%list
          | _ =>
              (fst paid,
               Returns (JObj [("success", JBool true);
                              ("job_id", job_id);
                              ("status", opt_get response "status");
                              ("status_url", opt_get response "status_url");
                              ("message", JStr "Video generation started. Use check-job-status to monitor progress.")]))
          end
      end
  end.
Proof.
  unfold generate_video. cbv zeta.
  destruct (makePaidRequest UNREEL_API_URL wallet api net "/api/generate-x402"
              (requestBody args)) as [t [response|e]]; cbn [fst snd].
  2: { cbn [bindR catchR retR app]. rewrite app_nil_r. reflexivity. }
  cbn [bindR].
  destruct (destructure response "response" "job_id") as [job_id|e].
  2: { rewrite bindR_lift_throws. cbn [catchR retR]. rewrite !app_nil_r. reflexivity. }
  rewrite bindR_lift_returns.
  assert (Hwait : forall (m : Run Call JsVal),
            catchR (let (t', r) := m in ((t ++ t')%list, r))
              (fun error => retR (JObj [("success", JBool false);
                                        ("error", JStr (message_or error "Unknown error"))]))
            = ((t ++ fst m)%list,
               match snd m with
               | Returns a => Returns a
               | Throws e =>
                   Returns (JObj [("success", JBool false);
                                  ("error", JStr (message_or e "Unknown error"))])
               end)).
  { intros [t' [a|e]]; cbn [catchR retR fst snd]; rewrite ?app_nil_r; reflexivity. }
  destruct (wait_for_completion args) as [[|]|].
  - rewrite Hwait. unfold trace, outcome.
    destruct (pollJobStatus jobs (ToString job_id) 60 5000) as [tp [result|e]].
    + rewrite (bindR_within_returns Sub (tp, Returns result) _ eq_refl).
      cbn [fst snd].
      destruct (get result "video_url") as [video_url|e].
      * rewrite bindR_lift_returns. cbn [retR fst snd]. rewrite app_nil_r. reflexivity.
      * rewrite bindR_lift_throws. cbn [fst snd]. rewrite app_nil_r. reflexivity.
    + rewrite (bindR_within_throws Sub (tp, Throws e) _ eq_refl). reflexivity.
  - rewrite Hwait. cbn [retR fst snd]. rewrite app_nil_r. reflexivity.
  - rewrite Hwait. cbn [retR fst snd]. rewrite app_nil_r. reflexivity.
Qed.

(** X17.  The handler of [generate-video] never throws: every run starts
    with the request, without payment header, of a body whose [script_text]
    is the prompt, and ends with a result object.  The object says
    [success: true] only when the paid request has returned a response, and
    then names that response's [job_id]; otherwise it says [success: false]
    with an error text that is never empty. *)
Theorem generate_video_never_throws (api : Api) (net : Services)
    (jobs : nat -> Outcome Response) (args : GenerateVideo) :
  exists result rest,
    generate_video UNREEL_API_URL wallet api net jobs args
      = (PostApi "/api/generate-x402" (requestBody args) None :: rest, Returns result) /\
    opt_get (requestBody args) "script_text" = JStr args.(prompt) /\
    ((opt_get result "success" = JBool true /\
      exists response,
        snd (makePaidRequest UNREEL_API_URL wallet api net "/api/generate-x402"
               (requestBody args)) = Returns response /\
        opt_get result "job_id" = opt_get response "job_id")
     \/
     (opt_get result "success" = JBool false /\
      exists reason, opt_get result "error" = JStr reason /\ reason <> "")).
Proof.
  rewrite generate_video_run. cbv zeta.
  destruct (makePaidRequest_first_call api net "/api/generate-x402" (requestBody args))
    as (rest & Hfirst).
  rewrite Hfirst.
  assert (Hfail : forall e,
            opt_get (JObj [("success", JBool false);
                           ("error", JStr (message_or e "Unknown error"))]) "success"
              = JBool false /\
            exists reason,
              opt_get (JObj [("success", JBool false);
                             ("error", JStr (message_or e "Unknown error"))]) "error"
                = JStr reason /\ reason <> "").
  { intros e. split; [reflexivity|]. eexists. split; [reflexivity|].
    apply message_or_nonempty. discriminate. }
  destruct (snd (makePaidRequest UNREEL_API_URL wallet api net "/api/generate-x402"
                   (requestBody args))) as [response|e].
  2: { do 2 eexists. split; [reflexivity|]. split; [reflexivity|]. right. apply Hfail. }
  destruct (destructure response "response" "job_id") as [job_id|e] eqn:Hd.
  2: { do 2 eexists. split; [reflexivity|]. split; [reflexivity|]. right. apply Hfail. }
  assert (Hid : job_id = opt_get response "job_id").
  { destruct response; try discriminate; injection Hd as <-; reflexivity. }
  destruct (wait_for_completion args) as [[|]|].
  - destruct (outcome (pollJobStatus jobs (ToString job_id) 60 5000)) as [result|e].
    + destruct (get result "video_url") as [video_url|e].
      * do 2 eexists. split; [reflexivity|]. split; [reflexivity|]. left.
        split; [reflexivity|]. exists response. split; [reflexivity | exact Hid].
      * do 2 eexists. split; [reflexivity|]. split; [reflexivity|]. right. apply Hfail.
    + do 2 eexists. split; [reflexivity|]. split; [reflexivity|]. right. apply Hfail.
  - do 2 eexists. split; [reflexivity|]. split; [reflexivity|]. left.
    split; [reflexivity|]. exists response. split; [reflexivity | exact Hid].
  - do 2 eexists. split; [reflexivity|]. split; [reflexivity|]. left.
    split; [reflexivity|]. exists response. split; [reflexivity | exact Hid].
Qed.

(** X18.  Without [wait_for_completion] the handler of [generate-video]
    makes the calls of the paid request and no other: the job is never
    polled.  A response that is not [null] or [undefined] is reported with
    [success: true] and its own [job_id], [status] and [status_url], also
    when it has none of them; an exception of the paid request is reported
    with [success: false] and its message. *)
Theorem generate_video_without_waiting (api : Api) (net : Services)
    (jobs : nat -> Outcome Response) (args : GenerateVideo) :
  args.(wait_for_completion) <> Some true ->
  fst (generate_video UNREEL_API_URL wallet api net jobs args)
    = fst (makePaidRequest UNREEL_API_URL wallet api net "/api/generate-x402"
             (requestBody args)) /\
  (forall response,
     snd (makePaidRequest UNREEL_API_URL wallet api net "/api/generate-x402"
            (requestBody args)) = Returns response ->
     response <> JUndefined -> response <> JNull ->
     snd (generate_video UNREEL_API_URL wallet api net jobs args)
       = Returns (JObj [("success", JBool true);
                        ("job_id", opt_get response "job_id");
                        ("status", opt_get response "status");
                        ("status_url", opt_get response "status_url");
                        ("message", JStr "Video generation started. Use check-job-status to monitor progress.")])) /\
  (forall e,
     snd (makePaidRequest UNREEL_API_URL wallet api net "/api/generate-x402"
            (requestBody args)) = Throws e ->
     snd (generate_video UNREEL_API_URL wallet api net jobs args)
       = Returns (JObj [("success", JBool false);
                        ("error", JStr (message_or e "Unknown error"))])).
Proof.
  intros Hwait. rewrite generate_video_run. cbv zeta.
  destruct (snd (makePaidRequest UNREEL_API_URL wallet api net "/api/generate-x402"
                   (requestBody args))) as [response|e].
  2: { split; [reflexivity|]. split; [intros ? [=] | intros ? [= <-]; reflexivity]. }
  destruct (destructure response "response" "job_id") as [job_id|e] eqn:Hd.
  2: { split; [reflexivity|]. split; [|intros ? [=]].
       intros response' [= <-] Hu Hn.
       rewrite (destructure_returns _ _ Hu Hn) in Hd. discriminate. }
  destruct (wait_for_completion args) as [[|]|]; [contradiction Hwait; reflexivity| |];
    (split; [reflexivity|]; split; [|intros ? [=]];
     intros response' [= <-] Hu Hn;
     rewrite (destructure_returns _ _ Hu Hn) in Hd; injection Hd as <-; reflexivity).
Qed.

(** X19.  With [wait_for_completion], after a paid request that returned a
    response, the handler polls the job named by the response's [job_id],
    with at most sixty status requests.  A job returned by the poll gives
    [success: true] with that job's [video_url]; an exception of the poll
    gives [success: false] with its message and no [job_id], although the
    request has been paid; sixty pending answers give the error "Job timed
    out after 60 attempts". *)
Theorem generate_video_waiting (api : Api) (net : Services)
    (jobs : nat -> Outcome Response) (args : GenerateVideo) (response : JsVal) :
  args.(wait_for_completion) = Some true ->
  snd (makePaidRequest UNREEL_API_URL wallet api net "/api/generate-x402"
         (requestBody args)) = Returns response ->
  response <> JUndefined -> response <> JNull ->
  fst (generate_video UNREEL_API_URL wallet api net jobs args)
    = (fst (makePaidRequest UNREEL_API_URL wallet api net "/api/generate-x402"
              (requestBody args))
       ++ map Sub (trace (pollJobStatus jobs (ToString (opt_get response "job_id"))
                            60 5000)))%list /\
  count_fetches (trace (pollJobStatus jobs (ToString (opt_get response "job_id"))
                          60 5000)) <= 60 /\
  (forall job,
     outcome (pollJobStatus jobs (ToString (opt_get response "job_id")) 60 5000)
       = Returns job ->
     snd (generate_video UNREEL_API_URL wallet api net jobs args)
       = Returns (JObj [("success", JBool true);
                        ("job_id", opt_get response "job_id");
                        ("status", JStr "completed");
                        ("video_url", opt_get job "video_url");
                        ("message", JStr "Video generated successfully!")])) /\
  (forall e,
     outcome (pollJobStatus jobs (ToString (opt_get response "job_id")) 60 5000)
       = Throws e ->
     snd (generate_video UNREEL_API_URL wallet api net jobs args)
       = Returns (JObj [("success", JBool false);
                        ("error", JStr (message_or e "Unknown error"))]) /\
     opt_get (JObj [("success", JBool false);
                    ("error", JStr (message_or e "Unknown error"))]) "job_id"
       = JUndefined) /\
  ((forall i, i < 60 -> observe (jobs i) = Pending) ->
   snd (generate_video UNREEL_API_URL wallet api net jobs args)
     = Returns (JObj [("success", JBool false);
                      ("error", JStr "Job timed out after 60 attempts")])).
Proof.
  intros Hwait Hpaid Hu Hn. rewrite generate_video_run. cbv zeta.
  rewrite Hpaid, (destructure_returns _ _ Hu Hn), Hwait. cbn [fst snd].
  split; [reflexivity|]. split.
  { unfold pollJobStatus.
    apply (@loop_calls_bounded
             (poll_loop jobs (ToString (opt_get response "job_id")) 60)
             (fun i => observe (jobs i)) (ToString (opt_get response "job_id"))
             (JobTimeout 60)).
    - reflexivity.
    - intros. apply poll_loop_pass. }
  split; [|split].
  - intros job Hjob. rewrite Hjob.
    destruct (poll_loop_returns _ _ _ _ _ _ Hjob) as (k & Hk).
    rewrite (completed_has_properties _ "video_url" Hk). reflexivity.
  - intros e He. rewrite He. split; reflexivity.
  - intros Hp.
    destruct (proj2 (poll_outcomes jobs (ToString (opt_get response "job_id")) 60 5000) Hp)
      as [Ho _].
    rewrite Ho. reflexivity.
Qed.

(** X20.  The handler of [check-job-status] makes one status request and
    never throws.  Its [is_complete] flag is true exactly on the answers at
    which [pollJobStatus] stops with a completed or a failed job, where
    [video_url] and [error] are the job's, or [null] without one; on an
    answer the poll treats as pending the flag is false; an exception of the
    request or of the parsing is reported with [success: false] and its
    message, or "Failed to check job status" without one. *)
Theorem check_job_status_reports (answer : Outcome Response) (job_id : string) :
  exists result,
    check_job_status answer job_id = ([FetchJob job_id], Returns result) /\
    match observe answer with
    | Broken e =>
        result = JObj [("success", JBool false);
                       ("error", JStr (message_or e "Failed to check job status"))]
    | Pending =>
        opt_get result "is_complete" = JBool false /\
        opt_get result "success" = JUndefined
    | Completed job | Failed job =>
        opt_get result "is_complete" = JBool true /\
        opt_get result "status" = opt_get job "status" /\
        opt_get result "video_url" = js_or (opt_get job "video_url") JNull /\
        opt_get result "error" = js_or (opt_get job "error") JNull
    end.
Proof.
  unfold check_job_status, observe, observe_job.
  destruct answer as [res|e].
  2: { eexists. split; reflexivity. }
  rewrite bindR_await_returns.
  destruct (json res) as [job|e].
  2: { eexists. split; reflexivity. }
  rewrite bindR_lift_returns.
  destruct (get job "status") as [st|e] eqn:Hst.
  2: { eexists. split; reflexivity. }
  rewrite bindR_lift_returns.
  rewrite (get_returns_again _ _ "video_url" Hst), bindR_lift_returns.
  rewrite (get_returns_again _ _ "error" Hst), bindR_lift_returns.
  pose proof (get_opt_get _ _ Hst) as Hst'.
  eexists. split; [reflexivity|].
  destruct (strict_eq_str st "completed") eqn:Hc;
    [|destruct (strict_eq_str st "failed") eqn:Hf];
    cbn [opt_get lookup String.eqb Ascii.eqb Bool.eqb orb];
    repeat split; try reflexivity; exact Hst'.
Qed.

(** X21.  The handler of [check-job-status] of the axios entry point gives,
    for a response body that is not [null] or [undefined], the same result
    as the handler of [src/index.ts] gives for that body; a rejected
    request, a 404 included, is reported with [success: false] and the
    rejection's own message. *)
Theorem check_job_status_handlers_agree (job_id : string) :
  (forall data_ st,
     data_ <> JUndefined -> data_ <> JNull ->
     axios_check_job_status (Resolved data_) job_id
       = check_job_status (Returns {| status := st; json := Returns data_ |}) job_id) /\
  (forall e response_status,
     axios_check_job_status (Rejected e response_status) job_id
       = ([FetchJob job_id],
          Returns (JObj [("success", JBool false);
                         ("error", JStr (message_or e "Failed to check job status"))]))).
Proof.
  split.
  - intros data_ st Hu Hn. unfold axios_check_job_status, check_job_status.
    rewrite !bindR_await_returns. cbn [json].
    rewrite bindR_lift_returns.
    rewrite (destructure_returns _ _ Hu Hn), bindR_lift_returns.
    assert (Hget : forall k, get data_ k = Returns (opt_get data_ k)).
    { intros k. destruct data_; try contradiction; reflexivity. }
    rewrite !Hget, !bindR_lift_returns. reflexivity.
  - intros e response_status. reflexivity.
Qed.

End Properties.

(* ================================================================== *)
(** * The properties on the concrete platform *)
(* ================================================================== *)

#[local] Existing Instances Demo.runtime Demo.platform_keys Demo.solana.

(** The scenario of the design document: the sponsor of step 1 is
    [SponsorA], the relay assigns [SponsorB]. *)
Lemma scenario_settles :
  In (FetchSettle "unreel-ai"
        (settleBody Demo.UNREEL_API_URL Demo.signed_tx Demo.challenge (JStr Demo.SponsorB)))
     (trace (Demo.pay Demo.services Demo.challenge)).
Proof. vm_compute. do 3 right. left. reflexivity. Qed.

(** The scenario returns the settled transaction; its final draft has the
    relay's signer as fee payer and the anchor of the first draft. *)
Lemma relay_signer_pays_witness :
  outcome (Demo.pay Demo.services Demo.challenge) = Returns (JStr "5Sig") /\
  exists n : Negotiation,
    negotiated Demo.wallet Demo.services Demo.challenge n /\
    n.(signerAddress) = JStr Demo.SponsorB /\
    (finalDraft n).(feePayer) = Some n.(signerKey) /\
    (finalDraft n).(recentBlockhash) = (firstDraft n).(recentBlockhash).
Proof.
  split; [vm_compute; reflexivity|].
  destruct (proj2 (@relay_signer_pays Demo.runtime Demo.platform_keys Demo.solana
                     Demo.UNREEL_API_URL Demo.wallet Demo.services Demo.challenge)
              "unreel-ai"
              (settleBody Demo.UNREEL_API_URL Demo.signed_tx Demo.challenge
                 (JStr Demo.SponsorB))
              scenario_settles)
    as (n & Hn & _ & Hbody & Hfee & _ & Hanchor & _).
  exists n. split; [exact Hn|].
  split; [|split; assumption].
  unfold settleBody in Hbody. injection Hbody as _ Hs. symmetry. exact Hs.
Defined.

(** In the scenario the final draft is the transfer followed by the relay
    instruction. *)
Lemma final_draft_instructions_witness :
  In (FetchSettle "unreel-ai"
        (settleBody Demo.UNREEL_API_URL Demo.signed_tx Demo.challenge (JStr Demo.SponsorB)))
     (trace (Demo.pay Demo.services Demo.challenge)) /\
  exists n : Negotiation,
    negotiated Demo.wallet Demo.services Demo.challenge n /\
    (firstDraft n).(instructions) = [n.(transfer)] /\
    (finalDraft n).(instructions) = [n.(transfer); n.(koraInstruction)].
Proof.
  split; [exact scenario_settles|].
  destruct (@final_draft_instructions Demo.runtime Demo.platform_keys Demo.solana
              Demo.UNREEL_API_URL Demo.wallet Demo.services Demo.challenge
              "unreel-ai"
              (settleBody Demo.UNREEL_API_URL Demo.signed_tx Demo.challenge
                 (JStr Demo.SponsorB))
              scenario_settles)
    as (n & Hn & _ & _ & Hfirst & Hfinal & _).
  exists n. split; [exact Hn|]. split; assumption.
Defined.

(** An account reference with role 3 becomes a writable signer. *)
Lemma role_mapping_witness :
  get (JObj [("address", JStr Demo.wallet); ("role", JNum 3)]) "address"
    = Returns (JStr Demo.wallet) /\
  PublicKey (JStr Demo.wallet) = Returns Demo.wallet /\
  koraKey (JObj [("address", JStr Demo.wallet); ("role", JNum 3)])
    = Returns {| pubkey := Demo.wallet; isSigner := true; isWritable := true |}.
Proof.
  assert (Ha : get (JObj [("address", JStr Demo.wallet); ("role", JNum 3)]) "address"
               = Returns (JStr Demo.wallet)) by reflexivity.
  assert (Hk : PublicKey (JStr Demo.wallet) = Returns Demo.wallet)
    by (vm_compute; reflexivity).
  split; [exact Ha|]. split; [exact Hk|].
  apply (@role_mapping Demo.platform_keys _ _ _ Ha Hk). reflexivity.
Defined.

(** A challenge whose recipient is the text "Addr1" makes no call at all. *)
Lemma malformed_address_stops_witness :
  PublicKey (JStr (payTo Demo.malformed_challenge))
    = Throws (Error "Invalid public key input") /\
  Demo.pay Demo.services Demo.malformed_challenge
    = ([], Throws (Error "Invalid public key input")).
Proof.
  assert (Hk : PublicKey (JStr (payTo Demo.malformed_challenge))
               = Throws (Error "Invalid public key input"))
    by (vm_compute; reflexivity).
  split; [exact Hk|].
  exact (@malformed_address_stops Demo.runtime Demo.platform_keys Demo.solana
           Demo.UNREEL_API_URL Demo.wallet Demo.services Demo.malformed_challenge
           _ (or_introl Hk)).
Defined.

(** C4, the claim as stated: a challenge with the amount "0", which is not
    positive, is not refused; the draft is built, the relay is asked, and the
    payment is settled. *)
Lemma zero_amount_is_settled :
  PrimFloat.leb (StringToNumber (maxAmountRequired Demo.zero_challenge)) 0 = true /\
  outcome (Demo.pay Demo.services Demo.zero_challenge) = Returns (JStr "5Sig") /\
  existsb is_settle (trace (Demo.pay Demo.services Demo.zero_challenge)) = true.
Proof. vm_compute. repeat split. Qed.




(** The settlement request of the scenario names the relay's signer. *)
Lemma settle_request_envelope_witness :
  In (FetchSettle "unreel-ai"
        (settleBody Demo.UNREEL_API_URL Demo.signed_tx Demo.challenge (JStr Demo.SponsorB)))
     (trace (Demo.pay Demo.services Demo.challenge)) /\
  exists n : Negotiation,
    negotiated Demo.wallet Demo.services Demo.challenge n /\
    get n.(paymentInstructionData) "signer_address" = Returns n.(signerAddress) /\
    n.(signerAddress) = JStr Demo.SponsorB.
Proof.
  split; [exact scenario_settles|].
  destruct (@settle_request_envelope Demo.runtime Demo.platform_keys Demo.solana
              Demo.UNREEL_API_URL Demo.wallet Demo.services Demo.challenge
              "unreel-ai"
              (settleBody Demo.UNREEL_API_URL Demo.signed_tx Demo.challenge
                 (JStr Demo.SponsorB))
              scenario_settles)
    as (n & Hn & Hsa & _ & _ & _ & _ & _ & _ & _ & _ & _ & Hfee & _).
  exists n. split; [exact Hn|]. split; [exact Hsa|].
  symmetry. exact Hfee.
Defined.

(** C7, the claim as stated: for a challenge of the network "solana-devnet"
    the settlement request is sent, and both of its network fields name the
    fixed identifier, not the challenge's network. *)
Lemma devnet_challenge_settles_on_mainnet :
  network Demo.devnet_challenge = "solana-devnet" /\
  In (FetchSettle "unreel-ai"
        (settleBody Demo.UNREEL_API_URL Demo.signed_tx Demo.devnet_challenge
           (JStr Demo.SponsorB)))
     (trace (Demo.pay Demo.services Demo.devnet_challenge)) /\
  opt_get (opt_get (settleBody Demo.UNREEL_API_URL Demo.signed_tx Demo.devnet_challenge
                      (JStr Demo.SponsorB)) "paymentPayload") "network"
    = JStr "solana:5eykt4UsFv8P8NJdTREpY1vzqKqZKvdp" /\
  opt_get (opt_get (settleBody Demo.UNREEL_API_URL Demo.signed_tx Demo.devnet_challenge
                      (JStr Demo.SponsorB)) "paymentRequirements") "network"
    = JStr "solana:5eykt4UsFv8P8NJdTREpY1vzqKqZKvdp".
Proof.
  split; [reflexivity|]. split; [|split; reflexivity].
  vm_compute. do 3 right. left. reflexivity.
Qed.

(** One payload of each shape. *)
Lemma dataBuffer_shapes_witness :
  dataBuffer (JArr (map byte_num [2; 0; 1]%Z)) = Returns [2; 0; 1]%Z /\
  dataBuffer (JObj [("data", JArr [JNum 1; JNum 255])]) = Returns [1; 255]%Z /\
  dataBuffer (JObj [("0", JNum 5); ("1", JNum 7)]) = Returns [5; 7]%Z /\
  dataBuffer (JStr "abc") = Returns [].
Proof.
  destruct (@dataBuffer_shapes Demo.runtime) as (_ & Hbytes & Hwrapped & Hvalues & Hother).
  split; [|split; [|split]].
  - apply Hbytes. repeat constructor; lia.
  - exact (Hwrapped [("data", JArr [JNum 1; JNum 255])] [JNum 1; JNum 255] eq_refl).
  - exact (Hvalues [("0", JNum 5); ("1", JNum 7)] eq_refl).
  - exact (Hother (JStr "abc") eq_refl eq_refl).
Defined.

(** C10, the claim as stated: normalisation is not total.  On [null] the
    third case applies, since [typeof null] is "object", and [Object.values]
    throws; on an object whose [data] field is a non-zero number the second
    case applies and [Buffer.from] throws. *)
Lemma dataBuffer_throws :
  dataBuffer JNull
    = Throws (TypeError "Cannot convert undefined or null to object") /\
  returned (dataBuffer JNull) = false /\
  returned (dataBuffer (JObj [("data", JNum 5)])) = false.
Proof. repeat split. Qed.

(** The scenario "pending, pending, completed": the job is returned after
    two timers, of 5000 and 6000. *)
Example poll_scenario :
  pollJobStatus Demo.completes_third "job-1" 60 5000 =
  ([FetchJob "job-1"; SetTimeout 5000; FetchJob "job-1"; SetTimeout 6000;
    FetchJob "job-1"],
   Returns (JObj [("status", JStr "completed")])).
Proof. vm_compute. reflexivity. Qed.

(** ** Runs of the further properties *)

(** A discovery response with an empty list of kinds stops the run after
    the discovery call. *)
Lemma no_sponsor_no_payment_witness :
  Demo.pay Demo.services_without_sponsor Demo.challenge
    = ([FetchSupported "unreel-ai"],
       Throws (Error "Failed to get fee payer from x402 service")).
Proof.
  assert (Hp : returned (PublicKey (JStr (payTo Demo.challenge))) = true)
    by (vm_compute; reflexivity).
  assert (Ha : returned (PublicKey (JStr (asset Demo.challenge))) = true)
    by (vm_compute; reflexivity).
  exact (@no_sponsor_no_payment Demo.runtime Demo.platform_keys Demo.solana
           Demo.UNREEL_API_URL Demo.wallet Demo.services_without_sponsor
           Demo.challenge Demo.supported_empty (JArr [])
           Hp Ha eq_refl eq_refl eq_refl).
Defined.

(** The relay instruction of the scenario has one entry for each of its two
    account references. *)
Lemma koraInstruction_follows_accounts_witness :
  exists kora accounts,
    koraInstruction_of (opt_get Demo.instruction_ok "payment_instruction")
      = Returns kora /\
    opt_get (opt_get Demo.instruction_ok "payment_instruction") "accounts"
      = JArr accounts /\
    List.length kora.(keys) = List.length accounts /\
    kora.(data) = [2; 0; 1]%Z.
Proof.
  pose (kora := {| keys := [{| pubkey := Demo.wallet; isSigner := true;
                               isWritable := true |};
                            {| pubkey := Demo.SponsorB; isSigner := false;
                               isWritable := true |}];
                   programId := Demo.KoraProgram;
                   data := [2; 0; 1]%Z |}).
  assert (Hk : koraInstruction_of (opt_get Demo.instruction_ok "payment_instruction")
               = Returns kora) by (vm_compute; reflexivity).
  destruct (@koraInstruction_follows_accounts Demo.runtime Demo.platform_keys
              (opt_get Demo.instruction_ok "payment_instruction") kora Hk)
    as (accounts & Hacc & _ & Hlen & _).
  exists kora, accounts.
  split; [exact Hk|]. split; [exact Hacc|]. split; [exact Hlen | reflexivity].
Defined.


(** With that instruction the run throws without a settlement request. *)
Lemma unusable_instruction_never_settles_witness :
  koraInstruction_of Demo.instruction_bad_account
    = Throws (Error "Invalid public key input") /\
  returned (outcome (Demo.pay Demo.services_bad_account Demo.challenge)) = false /\
  existsb is_settle (trace (Demo.pay Demo.services_bad_account Demo.challenge)) = false.
Proof.
  assert (Hk : koraInstruction_of Demo.instruction_bad_account
               = Throws (Error "Invalid public key input"))
    by (vm_compute; reflexivity).
  assert (Hpi : paymentInstruction_of
                  (JObj [("payment_instruction", Demo.instruction_bad_account);
                         ("signer_address", JStr Demo.SponsorB)])
                = Returns (Demo.instruction_bad_account, JStr Demo.SponsorB))
    by (vm_compute; reflexivity).
  split; [exact Hk|].
  exact (@unusable_instruction_never_settles Demo.runtime Demo.platform_keys
           Demo.solana Demo.UNREEL_API_URL Demo.wallet Demo.services_bad_account
           Demo.challenge
           (JObj [("payment_instruction", Demo.instruction_bad_account);
                  ("signer_address", JStr Demo.SponsorB)])
           Demo.instruction_bad_account (JStr Demo.SponsorB)
           (Error "Invalid public key input") eq_refl Hpi Hk).
Defined.


(** The answers "processing, processing, completed": the job is returned
    after three status requests. *)
Lemma poll_stops_at_first_result_witness :
  outcome (pollJobStatus Demo.completes_with_video "job-1" 60 5000)
    = Returns Demo.finished_job /\
  count_fetches (trace (pollJobStatus Demo.completes_with_video "job-1" 60 5000)) = 3.
Proof.
  destruct (@poll_stops_at_first_result Demo.runtime Demo.completes_with_video
              "job-1" 60 2 5000%float)
    as (Hdone & _ & _ & Hcount & _).
  - lia.
  - intros i Hi. destruct i as [|[|i]]; [reflexivity | reflexivity | lia].
  - vm_compute. discriminate.
  - split; [apply Hdone; reflexivity | exact Hcount].
Defined.

(** A job that stays in processing uses the three attempts it is given. *)
Lemma poll_gives_up_witness :
  outcome (pollJobStatus (fun _ => Demo.job_in "processing") "job-1" 3 5000)
    = Throws (JobTimeout 3) /\
  count_fetches (trace (pollJobStatus (fun _ => Demo.job_in "processing")
                          "job-1" 3 5000)) = 3.
Proof.
  destruct (@poll_gives_up Demo.runtime (fun _ => Demo.job_in "processing")
              "job-1" 3 5000%float)
    as (Ho & Hc & _).
  - intros i _. reflexivity.
  - split; [exact Ho | exact Hc].
Defined.

(** A first request rejected with status 404. *)
Lemma axios_poll_rejections_witness :
  outcome (axios_pollJobStatus Demo.rejects_404 "job-1" 60 5000)
    = Throws (JobNotFound "job-1") /\
  count_fetches (trace (axios_pollJobStatus Demo.rejects_404 "job-1" 60 5000)) = 1.
Proof.
  destruct (@axios_poll_rejections Demo.runtime Demo.rejects_404 "job-1" 60 0
              5000%float (Error "Request failed with status code 404")
              (Some 404%float))
    as (Ho & Hc & _).
  - lia.
  - intros i Hi. lia.
  - reflexivity.
  - split; [exact Ho | exact Hc].
Defined.

(** A service that accepts the job without asking for payment. *)
Lemma unpaid_response_bypasses_payment_witness :
  fst (makePaidRequest Demo.UNREEL_API_URL Demo.wallet Demo.api_free Demo.services
         "/api/generate-x402" (requestBody Demo.video_args))
    = [PostApi "/api/generate-x402" (requestBody Demo.video_args) None] /\
  snd (makePaidRequest Demo.UNREEL_API_URL Demo.wallet Demo.api_free Demo.services
         "/api/generate-x402" (requestBody Demo.video_args))
    = Returns Demo.job_created.
Proof.
  destruct (@unpaid_response_bypasses_payment Demo.runtime Demo.platform_keys
              Demo.solana Demo.UNREEL_API_URL Demo.wallet Demo.api_free
              Demo.services "/api/generate-x402" (requestBody Demo.video_args)
              Demo.accepted eq_refl)
    as (Ht & Hok & _).
  - discriminate.
  - split; [exact Ht | exact (Hok eq_refl)].
Defined.

(** The scenario behind the paywall: the request, the payment, the replay
    with the proof of the settled transaction. *)
Lemma payment_then_replay_witness :
  outcome (Demo.pay Demo.services Demo.challenge) = Returns (JStr "5Sig") /\
  fst (makePaidRequest Demo.UNREEL_API_URL Demo.wallet Demo.api_paywalled
         Demo.services "/api/generate-x402" (requestBody Demo.video_args))
    = (PostApi "/api/generate-x402" (requestBody Demo.video_args) None
       :: map Sub (trace (Demo.pay Demo.services Demo.challenge))
       ++ [PostApi "/api/generate-x402" (requestBody Demo.video_args)
             (Some (paymentPayload Demo.challenge (JStr "5Sig")))])%list /\
  snd (makePaidRequest Demo.UNREEL_API_URL Demo.wallet Demo.api_paywalled
         Demo.services "/api/generate-x402" (requestBody Demo.video_args))
    = Returns Demo.job_created.
Proof.
  assert (Hpay : outcome (Demo.pay Demo.services Demo.challenge) = Returns (JStr "5Sig"))
    by (vm_compute; reflexivity).
  split; [exact Hpay|].
  destruct (@payment_then_replay Demo.runtime Demo.platform_keys Demo.solana
              Demo.UNREEL_API_URL Demo.wallet Demo.api_paywalled Demo.services
              "/api/generate-x402" (requestBody Demo.video_args)
              Demo.payment_required Demo.challenge [] (JStr "5Sig")
              eq_refl eq_refl eq_refl Hpay)
    as (Ht & _ & _ & Hok & _).
  split; [exact Ht | exact (Hok Demo.accepted eq_refl eq_refl)].
Defined.

(** Behind the paywall with a relay that answers "no funds": the request is
    not replayed. *)
Lemma failed_payment_is_not_replayed_witness :
  outcome (Demo.pay Demo.services_rejecting Demo.challenge)
    = Throws (RelayRejected "no funds") /\
  snd (makePaidRequest Demo.UNREEL_API_URL Demo.wallet Demo.api_paywalled
         Demo.services_rejecting "/api/generate-x402" (requestBody Demo.video_args))
    = Throws (RelayRejected "no funds") /\
  existsb is_paid_post
    (fst (makePaidRequest Demo.UNREEL_API_URL Demo.wallet Demo.api_paywalled
            Demo.services_rejecting "/api/generate-x402"
            (requestBody Demo.video_args))) = false.
Proof.
  assert (Hpay : outcome (Demo.pay Demo.services_rejecting Demo.challenge)
                 = Throws (RelayRejected "no funds"))
    by (vm_compute; reflexivity).
  split; [exact Hpay|].
  destruct (proj1 (@failed_payment_is_not_replayed Demo.runtime Demo.platform_keys
                     Demo.solana Demo.UNREEL_API_URL Demo.wallet Demo.api_paywalled
                     Demo.services_rejecting "/api/generate-x402"
                     (requestBody Demo.video_args) Demo.payment_required
                     eq_refl eq_refl)
              Demo.challenge [] (RelayRejected "no funds") eq_refl Hpay)
    as (Hrun & Hnone).
  split; [|exact Hnone].
  exact (f_equal snd Hrun).
Defined.

(** The replay of the scenario carries a payment header, so the settlement
    response had a truthy success flag. *)
Lemma payment_header_means_settled_witness :
  In (PostApi "/api/generate-x402" (requestBody Demo.video_args)
        (Some (paymentPayload Demo.challenge (JStr "5Sig"))))
     (fst (makePaidRequest Demo.UNREEL_API_URL Demo.wallet Demo.api_paywalled
             Demo.services "/api/generate-x402" (requestBody Demo.video_args))) /\
  exists settleData,
    settleRes Demo.services = Returns settleData /\
    truthy (opt_get settleData "success") = true.
Proof.
  assert (Hin : In (PostApi "/api/generate-x402" (requestBody Demo.video_args)
                      (Some (paymentPayload Demo.challenge (JStr "5Sig"))))
                   (fst (makePaidRequest Demo.UNREEL_API_URL Demo.wallet
                           Demo.api_paywalled Demo.services "/api/generate-x402"
                           (requestBody Demo.video_args))))
    by (vm_compute; do 5 right; left; reflexivity).
  split; [exact Hin|].
  destruct (proj2 (@payment_header_means_settled Demo.runtime Demo.platform_keys
                     Demo.solana Demo.UNREEL_API_URL Demo.wallet Demo.api_paywalled
                     Demo.services "/api/generate-x402" (requestBody Demo.video_args))
              "/api/generate-x402" (requestBody Demo.video_args)
              (paymentPayload Demo.challenge (JStr "5Sig")) Hin)
    as (res & requirements & others & settleData & _ & _ & _ & Hres & Hflag & _).
  exists settleData. split; [exact Hres | exact Hflag].
Defined.

(** The tool call of the scenario, without waiting. *)
Lemma generate_video_without_waiting_witness :
  fst (generate_video Demo.UNREEL_API_URL Demo.wallet Demo.api_paywalled
         Demo.services Demo.completes_with_video Demo.video_args)
    = fst (makePaidRequest Demo.UNREEL_API_URL Demo.wallet Demo.api_paywalled
             Demo.services "/api/generate-x402" (requestBody Demo.video_args)) /\
  snd (generate_video Demo.UNREEL_API_URL Demo.wallet Demo.api_paywalled
         Demo.services Demo.completes_with_video Demo.video_args)
    = Returns (JObj [("success", JBool true);
                     ("job_id", JStr "job-1");
                     ("status", JStr "queued");
                     ("status_url", JStr "/api/jobs/job-1");
                     ("message", JStr "Video generation started. Use check-job-status to monitor progress.")]).
Proof.
  assert (Hpaid : snd (makePaidRequest Demo.UNREEL_API_URL Demo.wallet
                         Demo.api_paywalled Demo.services "/api/generate-x402"
                         (requestBody Demo.video_args))
                  = Returns Demo.job_created) by (vm_compute; reflexivity).
  destruct (@generate_video_without_waiting Demo.runtime Demo.platform_keys
              Demo.solana Demo.UNREEL_API_URL Demo.wallet Demo.api_paywalled
              Demo.services Demo.completes_with_video Demo.video_args)
    as (Ht & Hok & _).
  - discriminate.
  - split; [exact Ht|].
    apply (Hok Demo.job_created Hpaid); discriminate.
Defined.

(** The tool call of the scenario, waiting for the video. *)
Lemma generate_video_waiting_witness :
  snd (generate_video Demo.UNREEL_API_URL Demo.wallet Demo.api_paywalled
         Demo.services Demo.completes_with_video Demo.video_args_waiting)
    = Returns (JObj [("success", JBool true);
                     ("job_id", JStr "job-1");
                     ("status", JStr "completed");
                     ("video_url", JStr "https://cdn.unreel.ai/job-1.mp4");
                     ("message", JStr "Video generated successfully!")]) /\
  count_fetches (trace (pollJobStatus Demo.completes_with_video "job-1" 60 5000)) <= 60.
Proof.
  assert (Hpaid : snd (makePaidRequest Demo.UNREEL_API_URL Demo.wallet
                         Demo.api_paywalled Demo.services "/api/generate-x402"
                         (requestBody Demo.video_args_waiting))
                  = Returns Demo.job_created) by (vm_compute; reflexivity).
  assert (Hu : Demo.job_created <> JUndefined) by discriminate.
  assert (Hn : Demo.job_created <> JNull) by discriminate.
  destruct (@generate_video_waiting Demo.runtime Demo.platform_keys Demo.solana
              Demo.UNREEL_API_URL Demo.wallet Demo.api_paywalled Demo.services
              Demo.completes_with_video Demo.video_args_waiting Demo.job_created
              eq_refl Hpaid Hu Hn)
    as (_ & Hc & Hjob & _).
  split; [|exact Hc].
  apply (Hjob Demo.finished_job). vm_compute. reflexivity.
Defined.
